(** * Video-Caption-API: the subtitle pipeline of [app/services/video_service.py]

    A shallow embedding of the word-to-line segmentation
    ([VideoCaption._run_combine_words]) and of the job pipeline
    ([generate_subtitles], [process_video_with_subtitles],
    [background_video_processing]) together with the job store of
    [app/services/database.py].

    Python [float] is IEEE-754 binary64, which is what Rocq's primitive
    floats are, so word times are [PrimFloat.float] and the arithmetic of the
    source ([-], [+], [>]) is the primitive one.  Python [str] is a sequence
    of code points: texts are lists of code points so that [len] is [length]
    and [strip] removes exactly the code points Python calls white space. *)

From Stdlib Require Uint63.
From Stdlib Require Import PrimFloat ZArith NArith QArith Qabs Ascii Sorted.
From stdpp Require Import gmap strings list pretty.

Set Warnings "-inexact-float".
Close Scope Q_scope.

(** ** Python values *)

(** A Python [str]: its code points, in order. *)
Definition str : Type := list N.

(** A literal of 8-bit characters as a [str]. *)
Definition py (s : string) : str :=
  map N_of_ascii (String.list_ascii_of_string s).

(** [len(s)] as a Python [int]. *)
Definition len (s : str) : Z := Z.of_nat (length s).

(** Truth value of a [str] in a condition: the empty string is false. *)
Definition truthy (s : str) : bool :=
  match s with
  | [] => false
  | _ :: _ => true
  end.

(** [ch.isspace()] for one code point, as CPython's
    [_PyUnicode_IsWhitespace] tabulates it. *)
Definition isspace (c : N) : bool :=
  ((9 <=? c) && (c <=? 13) || (28 <=? c) && (c <=? 32)
   || (c =? 133) || (c =? 160) || (c =? 5760)
   || (8192 <=? c) && (c <=? 8202)
   || (c =? 8232) || (c =? 8233) || (c =? 8239) || (c =? 8287)
   || (c =? 12288))%N.

Fixpoint lstrip (s : str) : str :=
  match s with
  | c :: s' => if isspace c then lstrip s' else s
  | [] => []
  end.

Definition rstrip (s : str) : str := rev (lstrip (rev s)).

(** [s.strip()] with no argument. *)
Definition strip (s : str) : str := rstrip (lstrip s).

(** ** Exceptions and results *)

Inductive ExnClass : Type :=
  | ValueError
  | IndexError
  | TypeError
  | OSError
  | FfmpegError
  | RuntimeError
  | OverflowError.

(** A raised exception: its class and [str(e)].  All classes derive from
    [Exception]; interrupts and task cancellation are not modelled. *)
Record Exn : Type := mkExn { exn_class : ExnClass; exn_str : string }.

Inductive result (A : Type) : Type :=
  | Ok (a : A)
  | Raise (e : Exn).
Arguments Ok {A} a.
Arguments Raise {A} e.

Definition rbind {A B} (r : result A) (k : A -> result B) : result B :=
  match r with
  | Ok a => k a
  | Raise e => Raise e
  end.

(** ** Words and lines *)

(** [WordInfo]: one transcribed word. *)
Record WordInfo : Type := mkWord {
  word_start : float;
  word_end : float;
  word : str
}.

(** [LineInfo]: one subtitle line; [start] and [end] are [None] until the
    first word is folded in. *)
Record LineInfo : Type := mkLine {
  start : option float;
  end_ : option float;
  duration : float;
  line : str
}.

(** The line the loop starts from: no start, no end, duration [0.0], empty
    text. *)
Definition new_line : LineInfo :=
  {| start := None; end_ := None; duration := 0%float; line := [] |}.

(** ** [VideoCaption._run_combine_words] *)

Module Combine.

(** The two locals the loop mutates. *)
Record LoopState : Type := mkLoop {
  subtitle_lines : list LineInfo;
  current_line : LineInfo
}.

Definition init : LoopState :=
  {| subtitle_lines := []; current_line := new_line |}.

(** [current_line.line = current_line.line.strip()] *)
Definition strip_line (l : LineInfo) : LineInfo :=
  {| start := start l; end_ := end_ l; duration := duration l;
     line := strip (line l) |}.

(** [gap]: [0], or [word_start - data[i - 1].end] when [i > 0].  The literal
    [0] is a Python [int]; comparing it with the float [max_gap] gives what
    comparing [0.0] gives. *)
Definition gap_of (data : list WordInfo) (i : nat) (word_start : float)
  : result float :=
  if (0 <? i)%nat then
    match data !! (i - 1)%nat with
    | Some prev => Ok (word_start - word_end prev)%float
    | None => Raise (mkExn IndexError "list index out of range")
    end
  else Ok 0%float.

Section Body.
Variables (data : list WordInfo) (max_chars : Z) (max_duration max_gap : float).

(** One iteration of [for i, word_data in enumerate(data)].  The line
    appended to [subtitle_lines] is not touched again, since
    [current_line] is rebound to a new object right after. *)
Definition loop_body (i : nat) (word_data : WordInfo) (st : LoopState)
  : result LoopState :=
  let word_text := word word_data in
  let word_start := word_start word_data in
  let word_end := word_end word_data in
  let word_duration := (word_end - word_start)%float in
  rbind (gap_of data i word_start) (fun gap =>
  let cur := current_line st in
  let max_time_hit := (max_duration <? duration cur + word_duration)%float in
  let max_chars_hit := (max_chars <=? len (line cur) + len word_text)%Z in
  let max_gap_hit := (max_gap <? gap)%float in
  let st1 :=
    if truthy (line cur) && (max_time_hit || max_chars_hit || max_gap_hit)
    then {| subtitle_lines := subtitle_lines st ++ [strip_line cur];
            current_line := new_line |}
    else st in
  let cur1 := current_line st1 in
  let start1 :=
    match start cur1 with
    | None => Some word_start
    | Some s => Some s
    end in
  Ok {| subtitle_lines := subtitle_lines st1;
        current_line :=
          {| start := start1;
             end_ := Some word_end;
             duration := (duration cur1 + word_duration)%float;
             line := line cur1 ++ word_text |} |}).

(** The [for] loop, from index [i] over the words still to visit. *)
Fixpoint for_enumerate (i : nat) (rest : list WordInfo) (st : LoopState)
  : result LoopState :=
  match rest with
  | [] => Ok st
  | word_data :: rest' =>
      rbind (loop_body i word_data st) (for_enumerate (S i) rest')
  end.

(** After the loop: the remaining text becomes the last line. *)
Definition finish (st : LoopState) : list LineInfo :=
  if truthy (line (current_line st))
  then subtitle_lines st ++ [strip_line (current_line st)]
  else subtitle_lines st.

(** The loop state after the first [n] iterations. *)
Definition loop_prefix (n : nat) : result LoopState :=
  for_enumerate 0 (take n data) init.

End Body.

End Combine.

(** The whole function: the loop from index 0, then the last line. *)
Definition _run_combine_words (data : list WordInfo) (max_chars : Z)
    (max_duration max_gap : float) : result (list LineInfo) :=
  rbind (Combine.for_enumerate data max_chars max_duration max_gap 0 data
           Combine.init)
        (fun st => Ok (Combine.finish st)).

(** ** The segmentation pass as the specification words it

    A second definition, following the specification's algorithm: a single
    pass over the words that carries the previous word (for the gap) and the
    accumulator, and yields the finished lines. *)

Module Segment.

Definition word_duration (w : WordInfo) : float :=
  (word_end w - word_start w)%float.

(** [gap = w.start - words[i-1].end] if [i > 0], else [0]. *)
Definition gap (prev : option WordInfo) (w : WordInfo) : float :=
  match prev with
  | Some p => (word_start w - word_end p)%float
  | None => 0%float
  end.

Definition time_hit (max_duration : float) (acc : LineInfo) (w : WordInfo) : bool :=
  (max_duration <? duration acc + word_duration w)%float.

Definition chars_hit (max_chars : Z) (acc : LineInfo) (w : WordInfo) : bool :=
  (max_chars <=? len (line acc) + len (word w))%Z.

Definition gap_hit (max_gap : float) (prev : option WordInfo) (w : WordInfo) : bool :=
  (max_gap <? gap prev w)%float.

(** The accumulator is closed before [w] when its text is not empty and a
    trigger fires. *)
Definition breaks (max_chars : Z) (max_duration max_gap : float)
    (prev : option WordInfo) (acc : LineInfo) (w : WordInfo) : bool :=
  truthy (line acc)
  && (time_hit max_duration acc w || chars_hit max_chars acc w
      || gap_hit max_gap prev w).

(** The finished line: the accumulator with its text trimmed. *)
Definition emit (acc : LineInfo) : LineInfo :=
  {| start := start acc; end_ := end_ acc; duration := duration acc;
     line := strip (line acc) |}.

(** Folding [w] into an accumulator. *)
Definition add_word (acc : LineInfo) (w : WordInfo) : LineInfo :=
  {| start := match start acc with None => Some (word_start w) | Some s => Some s end;
     end_ := Some (word_end w);
     duration := (duration acc + word_duration w)%float;
     line := line acc ++ word w |}.

Section Pass.
Variables (max_chars : Z) (max_duration max_gap : float).

Fixpoint pass (prev : option WordInfo) (acc : LineInfo) (words : list WordInfo)
  : list LineInfo :=
  match words with
  | [] => if truthy (line acc) then [emit acc] else []
  | w :: words' =>
      if breaks max_chars max_duration max_gap prev acc w
      then emit acc :: pass (Some w) (add_word new_line w) words'
      else pass (Some w) (add_word acc w) words'
  end.
End Pass.

Definition segment (words : list WordInfo) (max_chars : Z)
    (max_duration max_gap : float) : list LineInfo :=
  pass max_chars max_duration max_gap None new_line words.

End Segment.

(** ** The words of a line

    Vocabulary for stating what a returned line is made of: the words
    folded into an accumulator between two breaks form a group. *)

Module Group.

(** The texts of the words, joined with nothing in between. *)
Definition text (g : list WordInfo) : str := concat (map word g).

(** The per-word durations added up from [0.0], left to right, which is the
    order in which the loop adds them. *)
Definition spoken (g : list WordInfo) : float :=
  fold_left (fun d w => (d + (word_end w - word_start w))%float) g 0%float.

(** The accumulator after folding the words of [g] into a new line. *)
Definition raw_line (g : list WordInfo) : LineInfo :=
  {| start := option_map word_start (head g);
     end_ := option_map word_end (last g);
     duration := spoken g;
     line := text g |}.

(** The finished line of a group. *)
Definition line_of (g : list WordInfo) : LineInfo := Segment.emit (raw_line g).

Section Split.
Variables (max_chars : Z) (max_duration max_gap : float).

(** The groups of a pass that has [g] in its accumulator: a group is
    closed where the pass breaks. *)
Fixpoint split (prev : option WordInfo) (g words : list WordInfo)
  : list (list WordInfo) :=
  match words with
  | [] => if truthy (text g) then [g] else []
  | w :: words' =>
      if Segment.breaks max_chars max_duration max_gap prev (raw_line g) w
      then g :: split (Some w) [w] words'
      else split (Some w) (g ++ [w]) words'
  end.
End Split.

Definition groups (words : list WordInfo) (max_chars : Z)
    (max_duration max_gap : float) : list (list WordInfo) :=
  split max_chars max_duration max_gap None [] words.

End Group.

(** ** Enumerations *)

(** [class Status(Enum)] *)
Inductive Status : Type := NotStarted | Processing | Completed | Failed.

Definition Status_value (s : Status) : Z :=
  match s with
  | NotStarted => 1
  | Processing => 2
  | Completed => 3
  | Failed => 4
  end.

(** [class Position(Enum)] *)
Inductive Position : Type := bottom | center | top.

(** [Position(value)]: the member with that value, or [ValueError]. *)
Definition Position_of_value (value : Z) : result Position :=
  if (value =? 1)%Z then Ok bottom
  else if (value =? 2)%Z then Ok center
  else if (value =? 3)%Z then Ok top
  else Raise (mkExn ValueError (pretty value +:+ " is not a valid Position")).

(** ** Options and stored rows *)

(** [SubtitleOptions] of [app/models/video_models.py]. *)
Record SubtitleOptions : Type := mkOptions {
  font : string;
  font_size : Z;
  font_color : string;
  stroke_color : string;
  stroke_width : Z;
  position_id : Z;
  shadow : bool;
  max_chars : Z;
  max_duration : float;
  max_gap : float
}.

(** A [datetime] as the text SQLite stores for it. *)
Definition datetime : Type := string.

(** A row of table [Jobs], without its key [Job_ID]. *)
Record JobRow : Type := mkJob {
  Progress : Z;
  Input_Path : string;
  Output_Path : string;
  Original_Filename : string;
  Created_At : datetime;
  Completed_At : datetime;
  Status_ID : Z;
  Download_URL : string;
  Failed_Message : string
}.

(** The statements the services send to the store. *)
Inductive DbCall : Type :=
  | InsertJob (job_id : string) (row : JobRow) (options : SubtitleOptions)
  | UpdateStatus (job_id : string) (status_id progress : Z)
  | UpdateFailed (job_id : string) (failed_message : string)
  | UpdateCompleted (job_id : string) (completed_at : datetime) (download_url : string).

(** ** The world a job runs in

    [jobs] and [options] are the two tables keyed by [Job_ID], [files] the
    regular files on disk.  [db_calls] is a ghost record of the store calls
    made so far, oldest first; no code reads it. *)
Record World : Type := mkWorld {
  jobs : gmap string JobRow;
  options : gmap string SubtitleOptions;
  files : gset string;
  db_calls : list DbCall
}.

(** What the collaborators outside the repository do during one service
    call: SQLite, the clock, [uuid], [pathlib], ffmpeg, Whisper, MoviePy and
    the file system.  [None] in an [option Exn] means the call returns
    normally.  A service call reads the clock at most once, hence the single
    [now]. *)
Record Env : Type := mkEnv {
  db_available : bool;
  now : datetime;
  uuid4 : string;
  TEMP_DIR : string;
  in_temp_dir : string -> bool;
  path_stem : string -> string;
  path_suffix : string -> string;
  ffmpeg_run : string -> string -> option Exn;
  whisper : string -> result (list WordInfo);
  video_file_clip : string -> result (Z * Z);
  text_clip : str -> option Exn;
  write_videofile : string -> option Exn;
  remove_error : string -> option Exn
}.

(** [str(TEMP_DIR / name)] for a relative [name]. *)
Definition temp_path (env : Env) (name : string) : string :=
  TEMP_DIR env +:+ "/" +:+ name.

(** ** Computations with state and exceptions *)

Definition M (A : Type) : Type := World -> result A * World.

Definition ret {A} (a : A) : M A := fun w => (Ok a, w).

Definition raise {A} (e : Exn) : M A := fun w => (Raise e, w).

Definition bind {A B} (c : M A) (k : A -> M B) : M B :=
  fun w =>
    match c w with
    | (Ok a, w') => k a w'
    | (Raise e, w') => (Raise e, w')
    end.

Notation "'let!' x ':=' c 'in' k" := (bind c (fun x => k))
  (at level 10, x name, c at level 200, k at level 200).

(** A pure computation that may raise. *)
Definition lift {A} (r : result A) : M A := fun w => (r, w).

(** [try: body  except cls: handler(e)]; [catches] says which exceptions
    the clause names. *)
Definition try_except {A} (body : M A) (catches : Exn -> bool)
    (handler : Exn -> M A) : M A :=
  fun w =>
    match body w with
    | (Ok a, w') => (Ok a, w')
    | (Raise e, w') => if catches e then handler e w' else (Raise e, w')
    end.

(** [try: body  finally: final]: [final] always runs, and an exception it
    raises replaces the outcome of [body]. *)
Definition try_finally {A} (body : M A) (final : M unit) : M A :=
  fun w =>
    match body w with
    | (r, w') =>
        match final w' with
        | (Ok _, w'') => (r, w'')
        | (Raise e, w'') => (Raise e, w'')
        end
    end.

(** [except Exception]: every modelled exception is one. *)
Definition any_exception (e : Exn) : bool := true.

(** [except ffmpeg.Error] *)
Definition is_ffmpeg_error (e : Exn) : bool :=
  match exn_class e with
  | FfmpegError => true
  | _ => false
  end.

(** ** The file system *)

Definition os_path_exists (path : string) : M bool :=
  fun w => (Ok (bool_decide (path ∈ files w)), w).

(** [os.remove(path)] *)
Definition os_remove (env : Env) (path : string) : M unit :=
  fun w =>
    if bool_decide (path ∈ files w) then
      match remove_error env path with
      | Some e => (Raise e, w)
      | None =>
          (Ok tt, {| jobs := jobs w; options := options w;
                     files := files w ∖ {[path]}; db_calls := db_calls w |})
      end
    else (Raise (mkExn OSError "No such file or directory"), w).

(** A tool that ends normally has written its output file. *)
Definition create_file (path : string) : M unit :=
  fun w =>
    (Ok tt, {| jobs := jobs w; options := options w;
               files := {[path]} ∪ files w; db_calls := db_calls w |}).

(** ** [app/services/database.py] *)

(** The effect of one committed statement on the tables.  An [INSERT]
    whose key is taken in either table commits nothing; an [UPDATE] of an
    absent [Job_ID] changes no row.  Foreign keys are not enforced (the
    connection never turns them on). *)
Definition commit (c : DbCall) (w : World) : World :=
  match c with
  | InsertJob job_id row opts =>
      {| jobs := <[job_id := row]> (jobs w);
         options := <[job_id := opts]> (options w);
         files := files w; db_calls := db_calls w |}
  | UpdateStatus job_id status_id progress =>
      {| jobs := alter (fun r =>
           {| Progress := progress; Input_Path := Input_Path r;
              Output_Path := Output_Path r;
              Original_Filename := Original_Filename r;
              Created_At := Created_At r; Completed_At := Completed_At r;
              Status_ID := status_id; Download_URL := Download_URL r;
              Failed_Message := Failed_Message r |}) job_id (jobs w);
         options := options w; files := files w; db_calls := db_calls w |}
  | UpdateFailed job_id failed_message =>
      {| jobs := alter (fun r =>
           {| Progress := 0; Input_Path := Input_Path r;
              Output_Path := Output_Path r;
              Original_Filename := Original_Filename r;
              Created_At := Created_At r; Completed_At := Completed_At r;
              Status_ID := 4; Download_URL := Download_URL r;
              Failed_Message := failed_message |}) job_id (jobs w);
         options := options w; files := files w; db_calls := db_calls w |}
  | UpdateCompleted job_id completed_at download_url =>
      {| jobs := alter (fun r =>
           {| Progress := 100; Input_Path := Input_Path r;
              Output_Path := Output_Path r;
              Original_Filename := Original_Filename r;
              Created_At := Created_At r; Completed_At := completed_at;
              Status_ID := 3; Download_URL := download_url;
              Failed_Message := Failed_Message r |}) job_id (jobs w);
         options := options w; files := files w; db_calls := db_calls w |}
  end.

(** Whether SQLite accepts the statement: an [INSERT] needs a fresh key. *)
Definition accepted (c : DbCall) (w : World) : bool :=
  match c with
  | InsertJob job_id _ _ =>
      bool_decide (jobs w !! job_id = None)
      && bool_decide (options w !! job_id = None)
  | _ => true
  end.

Definition log_call (c : DbCall) (w : World) : World :=
  {| jobs := jobs w; options := options w; files := files w;
     db_calls := db_calls w ++ [c] |}.

(** The shape shared by the functions of the module: connect, execute,
    commit and return [True]; on any exception print it and return [False]. *)
Definition db_execute (env : Env) (c : DbCall) : M bool :=
  fun w =>
    if db_available env && accepted c w
    then (Ok true, commit c (log_call c w))
    else (Ok false, log_call c w).

Definition create_job_db (env : Env) (job_id : string) (row : JobRow)
    (subtitle_options : SubtitleOptions) : M bool :=
  db_execute env (InsertJob job_id row subtitle_options).

Definition update_job_status_db (env : Env) (job_id : string)
    (status_id progress : Z) : M bool :=
  db_execute env (UpdateStatus job_id status_id progress).

Definition update_job_failed_db (env : Env) (job_id failed_message : string)
  : M bool :=
  db_execute env (UpdateFailed job_id failed_message).

Definition update_job_completed_db (env : Env) (job_id : string) : M bool :=
  db_execute env
    (UpdateCompleted job_id (now env) ("/jobs/" +:+ job_id +:+ "/download")).

(** ** Captions *)

(** The value of a Python [int] as a [float]; exact below [2^53], which
    covers every frame size. *)
Definition float_of_int (z : Z) : float :=
  match z with
  | Z0 => 0%float
  | Zpos _ => PrimFloat.of_uint63 (Uint63.of_Z z)
  | Zneg p => (- PrimFloat.of_uint63 (Uint63.of_Z (Zpos p)))%float
  end.

(** What the code sets on a MoviePy [TextClip]. *)
Record TextClip : Type := mkClip {
  clip_text : str;
  clip_font : string;
  clip_fontsize : Z;
  clip_color : string;
  clip_stroke_color : option string;
  clip_stroke_width : option Z;
  clip_start : float;
  clip_duration : float;
  clip_position : string * float;
  clip_blur_sigma : option Z
}.

(** [TextClip(text, ...)]: raises what the environment says for this text. *)
Definition new_text_clip (env : Env) (text : str) (c : TextClip)
  : result TextClip :=
  match text_clip env text with
  | Some e => Raise e
  | None => Ok c
  end.

(** The name of the type of a time, as an error message shows it. *)
Definition type_name (t : option float) : string :=
  match t with
  | Some _ => "float"
  | None => "NoneType"
  end.

(** The [TypeError] of [a - b] when an operand is still [None]. *)
Definition sub_type_error (a b : option float) : Exn :=
  mkExn TypeError
    ("unsupported operand type(s) for -: '" +:+ type_name a +:+ "' and '"
     +:+ type_name b +:+ "'").

Definition _get_position (video_height : Z) (position : Position)
  : string * float :=
  match position with
  | bottom => ("center", (float_of_int (video_height * 3) / 4)%float)
  | center => ("center", (float_of_int (video_height * 1) / 2)%float)
  | top => ("center", (float_of_int (video_height * 1) / 10)%float)
  end.

(** The shadow sits [offset[1]] lower.  Horizontally it stays ['center'];
    for any other first component the code would add an [int] to it, which
    for a string is a [TypeError]. *)
Definition _add_shadow_caption (env : Env) (text : str) (font : string)
    (font_size : Z) (start duration : float) (position : string * float)
    (sigma : Z) (offset : Z * Z) : result TextClip :=
  rbind (if String.eqb (fst position) "center" then Ok "center"
         else Raise (mkExn TypeError
                       "can only concatenate str (not int) to str"))
        (fun shadow_x =>
  let shadow_pos :=
    (shadow_x, (snd position + float_of_int (snd offset))%float) in
  new_text_clip env text
    {| clip_text := text; clip_font := font; clip_fontsize := font_size;
       clip_color := "black"; clip_stroke_color := None;
       clip_stroke_width := None; clip_start := start;
       clip_duration := duration; clip_position := shadow_pos;
       clip_blur_sigma := Some sigma |}).

Definition _create_caption_clip (env : Env) (caption_line_data : LineInfo)
    (video_size : Z * Z) (font : string) (font_size : Z)
    (font_color stroke_color : string) (stroke_width : Z)
    (caption_position : option (string * float)) (shadow : bool)
  : result (list TextClip) :=
  let video_height := snd video_size in
  let caption_position :=
    match caption_position with
    | None => ("center", (float_of_int (video_height * 3) / 4)%float)
    | Some p => p
    end in
  (* full_duration = caption_line_data.end - caption_line_data.start *)
  match end_ caption_line_data, start caption_line_data with
  | Some line_end, Some line_start =>
  let full_duration := (line_end - line_start)%float in
  rbind (new_text_clip env (line caption_line_data)
           {| clip_text := line caption_line_data; clip_font := font;
              clip_fontsize := font_size; clip_color := font_color;
              clip_stroke_color := Some stroke_color;
              clip_stroke_width := Some stroke_width;
              clip_start := line_start; clip_duration := full_duration;
              clip_position := caption_position;
              clip_blur_sigma := None |}) (fun caption_clip =>
  if shadow then
    rbind (_add_shadow_caption env (line caption_line_data) font font_size
             line_start full_duration caption_position 5 (3, 3)%Z)
          (fun shadow_clip => Ok [shadow_clip; caption_clip])
  else Ok [caption_clip])
  | line_end, line_start => Raise (sub_type_error line_end line_start)
  end.

(** The inner loop of [_create_caption]: clip [i] of the line goes to layer
    [i], and a layer is opened when there is none yet. *)
Fixpoint add_to_layers (final_caption_clips : list (list TextClip))
    (caption_clip : list TextClip) : list (list TextClip) :=
  match caption_clip, final_caption_clips with
  | [], _ => final_caption_clips
  | c :: cs, [] => [c] :: add_to_layers [] cs
  | c :: cs, layer :: layers => (layer ++ [c]) :: add_to_layers layers cs
  end.

Fixpoint caption_layers (env : Env) (frame_size : Z * Z)
    (subtitle_data : SubtitleOptions) (caption_position : string * float)
    (caption_data : list LineInfo) (final_caption_clips : list (list TextClip))
  : result (list (list TextClip)) :=
  match caption_data with
  | [] => Ok final_caption_clips
  | caption :: rest =>
      rbind (_create_caption_clip env caption frame_size
               (font subtitle_data) (font_size subtitle_data)
               (font_color subtitle_data) (stroke_color subtitle_data)
               (stroke_width subtitle_data) (Some caption_position)
               (shadow subtitle_data))
            (fun caption_clip =>
               caption_layers env frame_size subtitle_data caption_position
                 rest (add_to_layers final_caption_clips caption_clip))
  end.

Definition _create_caption (env : Env) (caption_data : list LineInfo)
    (frame_size : Z * Z) (subtitle_data : SubtitleOptions)
  : result (list (list TextClip)) :=
  rbind (Position_of_value (position_id subtitle_data)) (fun position =>
  let caption_position := _get_position (snd frame_size) position in
  caption_layers env frame_size subtitle_data caption_position caption_data []).

(** ** [VideoCaption] *)

Record VideoCaption : Type := mkVideoCaption {
  job_id : string;
  input_file_path : string;
  output_file_path : string;
  subtitle_options : SubtitleOptions
}.

(** [ffmpeg.run]: on a normal end the audio file is there. *)
Definition _run_ffmpeg_conversion (env : Env) (mp4_file audio_file_path : string)
  : M unit :=
  match ffmpeg_run env mp4_file audio_file_path with
  | Some e => raise e
  | None => create_file audio_file_path
  end.

(** Returns the path of the MP3 file, or [None] when the video is missing
    or ffmpeg reports an error.  The path ends in [.mp3], so it is never the
    empty string. *)
Definition _convert_video_to_mp3 (env : Env) (video_file : string)
  : M (option string) :=
  let audio_file_path := temp_path env (path_stem env video_file +:+ ".mp3") in
  let! found := os_path_exists video_file in
  if negb found then ret None
  else
    try_except
      (let! _ := _run_ffmpeg_conversion env video_file audio_file_path in
       ret (Some audio_file_path))
      is_ffmpeg_error
      (fun _ => ret None).

Definition _set_raw_output (env : Env) (audio_filename : string)
  : M (list WordInfo) :=
  lift (whisper env audio_filename).

Definition _combine_words (data : list WordInfo) (max_chars : Z)
    (max_duration max_gap : float) : M (list LineInfo) :=
  lift (_run_combine_words data max_chars max_duration max_gap).

(** [write_videofile]: on a normal end the output file is there. *)
Definition _render_output_video (env : Env) (self : VideoCaption)
    (text_clips : list TextClip) : M unit :=
  match write_videofile env (output_file_path self) with
  | Some e => raise e
  | None => create_file (output_file_path self)
  end.

(** [if not audio_filename] is the test for [None]: the other falsy value,
    the empty string, is never returned. *)
Definition generate_subtitles (env : Env) (self : VideoCaption) : M unit :=
  let! audio := _convert_video_to_mp3 env (input_file_path self) in
  match audio with
  | None =>
      raise (mkExn ValueError
               ("Failed to convert video to audio: " +:+ input_file_path self))
  | Some audio_filename =>
      let! _ := update_job_status_db env (job_id self)
                  (Status_value Processing) 25 in
      let! raw_output := _set_raw_output env audio_filename in
      let! _ := update_job_status_db env (job_id self)
                  (Status_value Processing) 50 in
      let! modified_output :=
        _combine_words raw_output
          (max_chars (subtitle_options self))
          (max_duration (subtitle_options self))
          (max_gap (subtitle_options self)) in
      let! _ := update_job_status_db env (job_id self)
                  (Status_value Processing) 65 in
      let! video_size := lift (video_file_clip env (input_file_path self)) in
      let! layers :=
        lift (_create_caption env modified_output video_size
                (subtitle_options self)) in
      let all_clips := concat layers in
      let! _ := _render_output_video env self all_clips in
      let! found := os_path_exists audio_filename in
      if found then os_remove env audio_filename else ret tt
  end.

(** ** The job services *)

Definition process_video_with_subtitles (env : Env)
    (job_id input_path output_path : string)
    (subtitle_options : SubtitleOptions) : M bool :=
  let videoCaption :=
    mkVideoCaption job_id input_path output_path subtitle_options in
  let! _ := generate_subtitles env videoCaption in
  ret true.

Definition background_video_processing (env : Env)
    (job_id input_path output_path : string)
    (subtitle_options : SubtitleOptions) : M unit :=
  try_finally
    (try_except
       (let! _ := update_job_status_db env job_id (Status_value NotStarted) 10 in
        let! success :=
          process_video_with_subtitles env job_id input_path output_path
            subtitle_options in
        if success
        then let! _ := update_job_completed_db env job_id in ret tt
        else let! _ := update_job_failed_db env job_id
                         "Error: Unable to process video" in ret tt)
       any_exception
       (fun e =>
          let! _ := update_job_failed_db env job_id ("Error: " +:+ exn_str e) in
          ret tt))
    (let! found := os_path_exists input_path in
     if found then os_remove env input_path else ret tt).

(** The dictionary [create_job] returns. *)
Record JobPaths : Type := mkJobPaths {
  Job_Id : string;
  Input_Path_ : string;
  Output_Path_ : string
}.

Definition create_job (env : Env) (video_filename : string)
    (subtitle_options : SubtitleOptions) : M JobPaths :=
  let job_id := uuid4 env in
  let input_filename := job_id +:+ "_input" +:+ path_suffix env video_filename in
  let output_filename := job_id +:+ "_output.mp4" in
  let input_path := temp_path env input_filename in
  let output_path := temp_path env output_filename in
  let job_data :=
    {| Progress := 0; Input_Path := input_path; Output_Path := output_path;
       Original_Filename := video_filename; Created_At := now env;
       Completed_At := "0001-01-01 01:01:01.000001";
       Status_ID := 1; Download_URL := EmptyString;
       Failed_Message := EmptyString |} in
  let! _ := create_job_db env job_id job_data subtitle_options in
  ret {| Job_Id := job_id; Input_Path_ := input_path;
         Output_Path_ := output_path |}.

(** One turn of the loop of [cleanup_temp_files]: the bare [except] drops
    whatever [os.remove] raises. *)
Definition remove_quietly (env : Env) (file_path : string) : M unit :=
  try_except (os_remove env file_path) (fun _ => true) (fun _ => ret tt).

Fixpoint for_each_path (body : string -> M unit) (paths : list string) : M unit :=
  match paths with
  | [] => ret tt
  | p :: rest => let! _ := body p in for_each_path body rest
  end.

(** [cleanup_temp_files]: every regular file of [TEMP_DIR]. *)
Definition cleanup_temp_files (env : Env) : M unit :=
  fun w =>
    for_each_path (remove_quietly env)
      (filter (fun p => in_temp_dir env p = true) (elements (files w))) w.

(** ** The job's progress writes *)

(** The three checkpoints [generate_subtitles] writes. *)
Definition checkpoints (job_id : string) : list DbCall :=
  [UpdateStatus job_id (Status_value Processing) 25;
   UpdateStatus job_id (Status_value Processing) 50;
   UpdateStatus job_id (Status_value Processing) 65].

(** The progress a call stores, and the status it stores. *)
Definition call_progress (c : DbCall) : Z :=
  match c with
  | InsertJob _ row _ => Progress row
  | UpdateStatus _ _ progress => progress
  | UpdateFailed _ _ => 0
  | UpdateCompleted _ _ _ => 100
  end.

Definition call_status (c : DbCall) : Z :=
  match c with
  | InsertJob _ row _ => Status_ID row
  | UpdateStatus _ status_id _ => status_id
  | UpdateFailed _ _ => 4
  | UpdateCompleted _ _ _ => 3
  end.

(** The terminal call of a run, from the outcome of the pipeline. *)
Definition terminal_call (env : Env) (job_id : string) (r : result bool) : DbCall :=
  match r with
  | Ok _ => UpdateCompleted job_id (now env) ("/jobs/" +:+ job_id +:+ "/download")
  | Raise e => UpdateFailed job_id ("Error: " +:+ exn_str e)
  end.

(** The calls made since the world [w]. *)
Definition calls_since (w w' : World) : list DbCall :=
  drop (length (db_calls w)) (db_calls w').

(** The world after making the given calls, in order. *)
Definition issue (env : Env) (calls : list DbCall) (w : World) : World :=
  fold_left (fun w c => snd (db_execute env c w)) calls w.

(** The same tables and calls, other files. *)
Definition with_files (fs : gset string) (w : World) : World :=
  {| jobs := jobs w; options := options w; files := fs;
     db_calls := db_calls w |}.

(** The input file is deleted in the [finally] clause. *)
Definition remove_input (env : Env) (input_path : string) : M unit :=
  let! found := os_path_exists input_path in
  if found then os_remove env input_path else ret tt.

(** ** Sample data *)

Module Sample.

Definition hello_world_today : list WordInfo :=
  [ mkWord 0.0 0.4 (py "Hello ");
    mkWord 0.5 0.9 (py "world ");
    mkWord 3.0 3.4 (py "today") ].

Definition silent_word : list WordInfo := [ mkWord 0.0 0.4 [] ].

Definition default_options : SubtitleOptions :=
  {| font := "Arial"; font_size := 24; font_color := "white";
     stroke_color := "black"; stroke_width := 2; position_id := 1;
     shadow := false; max_chars := 30; max_duration := 2.5; max_gap := 1.5 |}.


(** Every collaborator works. *)
Definition env_ok : Env :=
  {| db_available := true;
     now := "2025-06-01 12:00:00.000000";
     uuid4 := "j1";
     TEMP_DIR := "/temp";
     in_temp_dir := fun _ => true;
     path_stem := fun _ => "j1_input";
     path_suffix := fun _ => ".mp4";
     ffmpeg_run := fun _ _ => None;
     whisper := fun _ => Ok hello_world_today;
     video_file_clip := fun _ => Ok (640, 480)%Z;
     text_clip := fun _ => None;
     write_videofile := fun _ => None;
     remove_error := fun _ => None |}.

Definition with_whisper (env : Env) (r : result (list WordInfo)) : Env :=
  {| db_available := db_available env; now := now env; uuid4 := uuid4 env;
     TEMP_DIR := TEMP_DIR env; in_temp_dir := in_temp_dir env;
     path_stem := path_stem env; path_suffix := path_suffix env;
     ffmpeg_run := ffmpeg_run env; whisper := fun _ => r;
     video_file_clip := video_file_clip env; text_clip := text_clip env;
     write_videofile := write_videofile env;
     remove_error := remove_error env |}.

Definition with_remove_error (env : Env) (f : string -> option Exn) : Env :=
  {| db_available := db_available env; now := now env; uuid4 := uuid4 env;
     TEMP_DIR := TEMP_DIR env; in_temp_dir := in_temp_dir env;
     path_stem := path_stem env; path_suffix := path_suffix env;
     ffmpeg_run := ffmpeg_run env; whisper := whisper env;
     video_file_clip := video_file_clip env; text_clip := text_clip env;
     write_videofile := write_videofile env;
     remove_error := f |}.

(** Transcription fails. *)
Definition env_whisper_fails : Env :=
  with_whisper env_ok (Raise (mkExn RuntimeError "model could not be loaded")).

(** The input file cannot be deleted (it is still open). *)
Definition env_input_locked : Env :=
  with_remove_error env_ok (fun p =>
    if String.eqb p "/temp/j1_input.mp4"
    then Some (mkExn OSError "Permission denied") else None).

(** The audio file cannot be deleted. *)
Definition env_audio_locked : Env :=
  with_remove_error env_ok (fun p =>
    if String.eqb p "/temp/j1_input.mp3"
    then Some (mkExn OSError "Permission denied") else None).

Definition input_path : string := "/temp/j1_input.mp4".
Definition audio_path : string := "/temp/j1_input.mp3".
Definition output_path : string := "/temp/j1_output.mp4".

(** The upload has been saved and no job is stored yet. *)
Definition uploaded : World :=
  {| jobs := ∅; options := ∅; files := {[ input_path ]}; db_calls := [] |}.

(** The world once [create_job] has stored the job. *)
Definition created (env : Env) (opts : SubtitleOptions) : World :=
  snd (create_job env "talk.mp4" opts uploaded).

End Sample.

(** ** Proof automation *)

(** Case analysis on the innermost scrutinee that is still undetermined;
    [tac] is tried before each step. *)
Ltac by_cases_with tac :=
  repeat (cbn beta iota zeta;
          try tac;
          match goal with
          | |- context [match ?x with _ => _ end] =>
              lazymatch x with
              | context [match _ with _ => _ end] => fail
              | _ => destruct x eqn:?
              end
          end).

Ltac unfold_pipeline :=
  unfold generate_subtitles, _convert_video_to_mp3, _set_raw_output,
    _combine_words, _render_output_video, _run_ffmpeg_conversion,
    update_job_status_db, update_job_failed_db, update_job_completed_db,
    remove_input, try_except, try_finally, bind, lift, ret, raise,
    os_path_exists, os_remove, create_file, db_execute;
  cbn [files jobs options db_calls negb accepted andb
       db_available now ffmpeg_run whisper video_file_clip write_videofile
       remove_error TEMP_DIR path_stem].

(** ** The reference tables of [init_database] *)

(** Tables [Positions] and [Status]: a name for each id. *)
Record Catalog : Type := mkCatalog {
  Positions : gmap Z string;
  Status_table : gmap Z string
}.

(** [INSERT OR IGNORE INTO t VALUES (key, name)]: the primary key decides. *)
Definition insert_or_ignore (key : Z) (name : string) (table : gmap Z string)
  : gmap Z string :=
  match table !! key with
  | Some _ => table
  | None => <[key := name]> table
  end.

(** [init_database] on a database that can be opened.  [Jobs],
    [Subtitle_Options] and the indexes are created only when missing, which
    leaves every stored row as it is; the function has no handler, so an
    SQLite error would leave it as an exception. *)
Definition init_database (c : Catalog) : Catalog :=
  {| Positions :=
       insert_or_ignore 3 "Top"
         (insert_or_ignore 2 "Center"
            (insert_or_ignore 1 "Bottom" (Positions c)));
     Status_table :=
       insert_or_ignore 4 "Failed"
         (insert_or_ignore 3 "Completed"
            (insert_or_ignore 2 "Processing"
               (insert_or_ignore 1 "Not Started" (Status_table c)))) |}.

(** The value of a member of [Position]. *)
Definition Position_value (p : Position) : Z :=
  match p with
  | bottom => 1
  | center => 2
  | top => 3
  end.

(** ** Reading the store *)

(** What a read needs besides the tables of jobs: the reference tables and
    [datetime.strptime] with the format of [settings.py]. *)
Record Site : Type := mkSite {
  catalog : Catalog;
  strptime : string -> result datetime
}.

(** [JobStatus] of [app/models/video_models.py]. *)
Record JobStatus : Type := mkJobStatus {
  status_job_id : string;
  status_status_name : string;
  status_status_id : Z;
  status_progress : Z;
  status_created_at : datetime;
  status_completed_at : datetime;
  status_download_url : string
}.

(** [JobInformation] of [app/models/video_models.py]. *)
Record JobInformation : Type := mkJobInformation {
  info_job_id : string;
  info_status_id : Z;
  info_status_name : string;
  info_progress : Z;
  info_created_at : datetime;
  info_completed_at : datetime;
  info_input_path : string;
  info_output_path : string;
  info_download_url : string;
  info_original_filename : string
}.

(** The row [Jobs LEFT JOIN Status] gives for a job: the status name and
    the status id come from [Status] and are [NULL] when the job's
    [Status_ID] has no row there. *)
Definition joined_status (site : Site) (row : JobRow) : option (string * Z) :=
  match Status_table (catalog site) !! Status_ID row with
  | Some name => Some (name, Status_ID row)
  | None => None
  end.

(** [get_job_status_db].  An SQLite error and a missing job both give
    [None].  The dates are parsed, in this order, before the model is built;
    a [NULL] status name or id is refused by the model, whose error is a
    [ValueError].  A read leaves the world, [db_calls] included, as it is. *)
Definition get_job_status_db (env : Env) (site : Site) (job_id : string)
  : M (option JobStatus) :=
  fun w =>
    if db_available env then
      match jobs w !! job_id with
      | None => (Ok None, w)
      | Some row =>
          (rbind (strptime site (Created_At row)) (fun created_at =>
           rbind (strptime site (Completed_At row)) (fun completed_at =>
           match joined_status site row with
           | Some (status_name, status_id) =>
               Ok (Some {| status_job_id := job_id;
                           status_status_name := status_name;
                           status_status_id := status_id;
                           status_progress := Progress row;
                           status_created_at := created_at;
                           status_completed_at := completed_at;
                           status_download_url := Download_URL row |})
           | None =>
               Raise (mkExn ValueError "validation error for JobStatus")
           end)), w)
      end
    else (Ok None, w).

(** [get_job_download_URL_db] *)
Definition get_job_download_URL_db (env : Env) (site : Site) (job_id : string)
  : M (option JobInformation) :=
  fun w =>
    if db_available env then
      match jobs w !! job_id with
      | None => (Ok None, w)
      | Some row =>
          (rbind (strptime site (Created_At row)) (fun created_at =>
           rbind (strptime site (Completed_At row)) (fun completed_at =>
           match joined_status site row with
           | Some (status_name, status_id) =>
               Ok (Some {| info_job_id := job_id;
                           info_status_id := status_id;
                           info_status_name := status_name;
                           info_progress := Progress row;
                           info_created_at := created_at;
                           info_completed_at := completed_at;
                           info_input_path := Input_Path row;
                           info_output_path := Output_Path row;
                           info_download_url := Download_URL row;
                           info_original_filename := Original_Filename row |})
           | None =>
               Raise (mkExn ValueError "validation error for JobInformation")
           end)), w)
      end
    else (Ok None, w).

Definition pull_job_status (env : Env) (site : Site) (job_id : string)
  : M (option JobStatus) :=
  get_job_status_db env site job_id.

Definition pull_job_download_url (env : Env) (site : Site) (job_id : string)
  : M (option JobInformation) :=
  get_job_download_URL_db env site job_id.

(** ** [app/routes/video_routes.py] *)

(** What a route answers: its value, or the [HTTPException] it raises.
    Any other exception of a route is the [Raise] of [M]. *)
Inductive Reply (A : Type) : Type :=
  | Respond (a : A)
  | HTTPException (status_code : Z) (detail : string).
Arguments Respond {A} a.
Arguments HTTPException {A} status_code detail.

(** The fields of [UploadFile] the route reads; [size] is the number of
    bytes the server received. *)
Record UploadFile : Type := mkUpload {
  upload_filename : string;
  upload_content_type : string;
  upload_size : Z
}.

Record UploadResponse : Type := mkUploadResponse {
  response_job_id : string;
  response_msg : string;
  response_status_url : string
}.

(** The call handed to [background_tasks.add_task]. *)
Record Task : Type := mkTask {
  task_job_id : string;
  task_input_path : string;
  task_output_path : string;
  task_options : SubtitleOptions
}.

(** [a / b] for two [int]s, [b] positive.  CPython gives the float nearest
    to the exact quotient, ties to even, and raises [OverflowError] when that
    float would be [2^1024] or more, which is when the quotient reaches
    [2^1024 - 2^970].  The value is kept as the exact quotient, of which
    the float is the rounding. *)
Definition true_divide (a : Z) (b : positive) : result Q :=
  let quotient := Qmake a b in
  if Qle_bool (inject_Z (2 ^ 1024 - 2 ^ 970)) (Qabs quotient)
  then Raise (mkExn OverflowError
                "integer division result too large for a float")
  else Ok quotient.

(** [(video.size / pow(1024, 2)) >= 250].  Rounding to the nearest float
    keeps the order and 250 is a float, so the float is at least 250 exactly
    when the quotient is. *)
Definition too_large (size : Z) : result bool :=
  rbind (true_divide size (Z.to_pos (1024 ^ 2))) (fun megabytes =>
  Ok (Qle_bool (inject_Z 250) megabytes)).

(** [upload_video]: the response, and the task left to run after it.
    [settings.py] creates [TEMP_DIR] when it is loaded; writing the upload
    there is taken to succeed. *)
Definition upload_video (env : Env) (video : UploadFile)
    (font_family : string) (font_size : Z) (font_color stroke_color : string)
    (stroke_width position : Z) (shadow : bool) (max_chars : Z)
    (max_duration max_gap : float) : M (Reply (UploadResponse * Task)) :=
  if negb (String.prefix "video/" (upload_content_type video)) then
    ret (HTTPException 400 "File must be a video")
  else
    let! large := lift (too_large (upload_size video)) in
    if large then
      ret (HTTPException 400 "File must be 250 MB or less")
    else
    let subtitle_options :=
      {| font := font_family; font_size := font_size;
         font_color := font_color; stroke_color := stroke_color;
         stroke_width := stroke_width; position_id := position;
         shadow := shadow; max_chars := max_chars;
         max_duration := max_duration; max_gap := max_gap |} in
    let! job_data := create_job env (upload_filename video) subtitle_options in
    let job_id := Job_Id job_data in
    let input_path := Input_Path_ job_data in
    let output_path := Output_Path_ job_data in
    let! _ := create_file input_path in
    ret (Respond
           ({| response_job_id := job_id;
               response_msg := "Video uploaded successfully";
               response_status_url := "/jobs/" +:+ job_id +:+ "/status" |},
            {| task_job_id := job_id; task_input_path := input_path;
               task_output_path := output_path;
               task_options := subtitle_options |})).


(** [get_job_status] *)
Definition get_job_status (env : Env) (site : Site) (job_id : string)
  : M (Reply JobStatus) :=
  let! job_data := pull_job_status env site job_id in
  match job_data with
  | None => ret (HTTPException 404 "Job not found")
  | Some data => ret (Respond data)
  end.

Record FileResponse : Type := mkFileResponse {
  file_path : string;
  file_filename : string;
  file_media_type : string
}.

(** [download_job] *)
Definition download_job (env : Env) (site : Site) (job_id : string)
  : M (Reply FileResponse) :=
  let! job_data := pull_job_download_url env site job_id in
  match job_data with
  | None => ret (HTTPException 404 "Job not found")
  | Some data =>
      if negb (info_progress data =? 100)%Z || negb (info_status_id data =? 3)%Z
      then
        ret (HTTPException 400
               ("Video processing not completed. Current status: "
                +:+ info_status_name data))
      else
        let! found := os_path_exists (info_output_path data) in
        if negb found then
          ret (HTTPException 404 "Processed video file not found")
        else
          ret (Respond
                 {| file_path := info_output_path data;
                    file_filename :=
                      "captioned_"
                      +:+ path_stem env (info_original_filename data)
                      +:+ ".mp4";
                    file_media_type := "video/mp4" |})
  end.

(** ** Start of the application ([app/core/config.py]) *)

(** The start-up half of [lifespan]: the reference tables, then the
    temporary files. *)
Definition lifespan_startup (env : Env) (c : Catalog) : M Catalog :=
  let c' := init_database c in
  let! _ := cleanup_temp_files env in
  ret c'.

(** ** The clips of a line *)

(** The caption clip [_create_caption_clip] builds for a line with the
    times [line_start] and [line_end]. *)
Definition caption_clip_at (opts : SubtitleOptions) (position : string * float)
    (l : LineInfo) (line_start line_end : float) : TextClip :=
  {| clip_text := line l; clip_font := font opts;
     clip_fontsize := font_size opts; clip_color := font_color opts;
     clip_stroke_color := Some (stroke_color opts);
     clip_stroke_width := Some (stroke_width opts);
     clip_start := line_start;
     clip_duration := (line_end - line_start)%float;
     clip_position := position;
     clip_blur_sigma := None |}.

(** Its shadow, 3 lower and blurred with sigma 5. *)
Definition shadow_clip_at (opts : SubtitleOptions) (position : string * float)
    (l : LineInfo) (line_start line_end : float) : TextClip :=
  {| clip_text := line l; clip_font := font opts;
     clip_fontsize := font_size opts; clip_color := "black";
     clip_stroke_color := None; clip_stroke_width := None;
     clip_start := line_start;
     clip_duration := (line_end - line_start)%float;
     clip_position := ("center", (snd position + float_of_int 3)%float);
     clip_blur_sigma := Some 5%Z |}.

(** A time that is set, and [0.0] for one that is not. *)
Definition time_or_zero (t : option float) : float :=
  match t with
  | Some x => x
  | None => 0%float
  end.

Definition caption_clip_of (opts : SubtitleOptions) (position : string * float)
    (l : LineInfo) : TextClip :=
  caption_clip_at opts position l (time_or_zero (start l)) (time_or_zero (end_ l)).

Definition shadow_clip_of (opts : SubtitleOptions) (position : string * float)
    (l : LineInfo) : TextClip :=
  shadow_clip_at opts position l (time_or_zero (start l)) (time_or_zero (end_ l)).

(** ** Groups and the limits *)

(** The shape a group has when its words were taken without a check: words
    without text, then one word. *)
Definition unchecked (g : list WordInfo) : Prop :=
  exists g0 w, g = g0 ++ [w] /\ Forall (fun x => word x = []) g0.

(** What the pass keeps true of its accumulator. *)
Definition within (max_chars : Z) (max_duration : float) (g : list WordInfo)
  : Prop :=
  (len (Group.text g) < max_chars)%Z
  /\ (max_duration <? Group.spoken g)%float = false.

(** ** Vocabulary for the store *)

(** An update of the row of job [job_id]. *)
Definition updates_job (job_id : string) (c : DbCall) : Prop :=
  match c with
  | InsertJob _ _ _ => False
  | UpdateStatus j _ _ => j = job_id
  | UpdateFailed j _ => j = job_id
  | UpdateCompleted j _ _ => j = job_id
  end.

(** The row with another failure message. *)
Definition with_failed_message (message : string) (row : JobRow) : JobRow :=
  {| Progress := Progress row; Input_Path := Input_Path row;
     Output_Path := Output_Path row;
     Original_Filename := Original_Filename row;
     Created_At := Created_At row; Completed_At := Completed_At row;
     Status_ID := Status_ID row; Download_URL := Download_URL row;
     Failed_Message := message |}.

(** The world with other rows of jobs. *)
Definition with_jobs (js : gmap string JobRow) (w : World) : World :=
  {| jobs := js; options := options w; files := files w;
     db_calls := db_calls w |}.

(** The row [create_job] inserts. *)
Definition new_job_row (env : Env) (video_filename : string) : JobRow :=
  {| Progress := 0;
     Input_Path :=
       temp_path env (uuid4 env +:+ "_input" +:+ path_suffix env video_filename);
     Output_Path := temp_path env (uuid4 env +:+ "_output.mp4");
     Original_Filename := video_filename;
     Created_At := now env;
     Completed_At := "0001-01-01 01:01:01.000001";
     Status_ID := 1; Download_URL := EmptyString;
     Failed_Message := EmptyString |}.


(** ** More sample data *)

Module Demo.

Definition two_lines : list LineInfo :=
  [ {| start := Some 0.0%float; end_ := Some 0.9%float;
       duration := 0.8%float; line := py "Hello world" |};
    {| start := Some 3.0%float; end_ := Some 3.4%float;
       duration := 0.4%float; line := py "today" |} ].

(** Captions at the top, with shadows. *)
Definition shadowed_options : SubtitleOptions :=
  {| font := "Arial"; font_size := 24; font_color := "white";
     stroke_color := "black"; stroke_width := 2; position_id := 3;
     shadow := true; max_chars := 30; max_duration := 2.5; max_gap := 1.5 |}.

(** Reference tables as [init_database] leaves a new database, and dates
    that all parse. *)
Definition site : Site :=
  {| catalog := init_database (mkCatalog ∅ ∅);
     strptime := fun text => Ok text |}.

(** The world after a run in which transcription failed, and the row it
    leaves. *)
Definition failed_world : World :=
  snd (background_video_processing Sample.env_whisper_fails "j1"
         Sample.input_path Sample.output_path Sample.default_options
         (Sample.created Sample.env_whisper_fails Sample.default_options)).

Definition failed_row : JobRow :=
  {| Progress := 0; Input_Path := Sample.input_path;
     Output_Path := Sample.output_path;
     Original_Filename := "talk.mp4";
     Created_At := "2025-06-01 12:00:00.000000";
     Completed_At := "0001-01-01 01:01:01.000001";
     Status_ID := 4; Download_URL := EmptyString;
     Failed_Message := "Error: model could not be loaded" |}.

(** The world after a run in which every stage worked. *)
Definition completed_world : World :=
  snd (background_video_processing Sample.env_ok "j1"
         Sample.input_path Sample.output_path Sample.default_options
         (Sample.created Sample.env_ok Sample.default_options)).

(** Every collaborator works, except that the database cannot be reached. *)
Definition env_store_down : Env :=
  {| db_available := false;
     now := now Sample.env_ok;
     uuid4 := uuid4 Sample.env_ok;
     TEMP_DIR := TEMP_DIR Sample.env_ok;
     in_temp_dir := in_temp_dir Sample.env_ok;
     path_stem := path_stem Sample.env_ok;
     path_suffix := path_suffix Sample.env_ok;
     ffmpeg_run := ffmpeg_run Sample.env_ok;
     whisper := whisper Sample.env_ok;
     video_file_clip := video_file_clip Sample.env_ok;
     text_clip := text_clip Sample.env_ok;
     write_videofile := write_videofile Sample.env_ok;
     remove_error := remove_error Sample.env_ok |}.

End Demo.

(** ** Segmentation: the loop of the source is the specified pass *)

Section CombineFacts.
Variables (data : list WordInfo) (max_chars : Z) (max_duration max_gap : float).

Let body := Combine.loop_body data max_chars max_duration max_gap.
Let loop := Combine.for_enumerate data max_chars max_duration max_gap.

(** Inside the loop the index is in range: [data[i - 1]] is the word
    visited just before. *)
Lemma gap_of_visited (visited rest : list WordInfo) (w : WordInfo) :
  data = visited ++ w :: rest ->
  Combine.gap_of data (length visited) (word_start w)
  = Ok (Segment.gap (last visited) w).
Proof.
  intros ->. unfold Combine.gap_of, Segment.gap.
  destruct visited as [|v visited'] using rev_ind; [reflexivity|].
  rewrite length_app, last_snoc. simpl length.
  replace (0 <? length visited' + 1)%nat with true
    by (symmetry; apply Nat.ltb_lt; lia).
  replace (length visited' + 1 - 1)%nat with (length visited') by lia.
  rewrite <- app_assoc. simpl.
  rewrite lookup_app_r by lia. rewrite Nat.sub_diag. reflexivity.
Qed.

(** One iteration is one step of the pass. *)
Lemma loop_body_step (visited rest : list WordInfo) (w : WordInfo)
    (st : Combine.LoopState) :
  data = visited ++ w :: rest ->
  body (length visited) w st
  = Ok (if Segment.breaks max_chars max_duration max_gap (last visited)
             (Combine.current_line st) w
        then {| Combine.subtitle_lines :=
                  Combine.subtitle_lines st ++ [Segment.emit (Combine.current_line st)];
                Combine.current_line := Segment.add_word new_line w |}
        else {| Combine.subtitle_lines := Combine.subtitle_lines st;
                Combine.current_line := Segment.add_word (Combine.current_line st) w |}).
Proof.
  intros Hdata. unfold body, Combine.loop_body.
  rewrite (gap_of_visited visited rest w Hdata). simpl rbind.
  unfold Segment.breaks, Segment.time_hit, Segment.chars_hit, Segment.gap_hit,
    Segment.word_duration.
  destruct (truthy (line (Combine.current_line st)) && _); reflexivity.
Qed.

Lemma loop_from (rest visited : list WordInfo) (st : Combine.LoopState) :
  data = visited ++ rest ->
  rbind (loop (length visited) rest st) (fun st' => Ok (Combine.finish st'))
  = Ok (Combine.subtitle_lines st
        ++ Segment.pass max_chars max_duration max_gap (last visited)
             (Combine.current_line st) rest).
Proof.
  revert visited st.
  induction rest as [|w rest IH]; intros visited st Hdata.
  - simpl. unfold Combine.finish, Segment.emit, Combine.strip_line.
    destruct (truthy _); [reflexivity | by rewrite app_nil_r].
  - simpl. fold body. rewrite (loop_body_step visited rest w st Hdata).
    simpl rbind.
    specialize (IH (visited ++ [w])).
    rewrite length_app, last_snoc in IH. simpl length in IH.
    replace (S (length visited)) with (length visited + 1)%nat by lia.
    destruct (Segment.breaks _ _ _ _ _ _).
    + rewrite IH by (by rewrite <- app_assoc). simpl.
      by rewrite <- app_assoc.
    + rewrite IH by (by rewrite <- app_assoc). reflexivity.
Qed.

Lemma run_combine_words_segment :
  _run_combine_words data max_chars max_duration max_gap
  = Ok (Segment.segment data max_chars max_duration max_gap).
Proof.
  unfold _run_combine_words. exact (loop_from data [] Combine.init eq_refl).
Qed.

End CombineFacts.

(** ** Segmentation: lines and groups of words *)

Section GroupFacts.
Variables (max_chars : Z) (max_duration max_gap : float).

Lemma raw_line_snoc (g : list WordInfo) (w : WordInfo) :
  Group.raw_line (g ++ [w]) = Segment.add_word (Group.raw_line g) w.
Proof.
  unfold Group.raw_line, Segment.add_word, Group.spoken, Group.text,
    Segment.word_duration. simpl.
  rewrite last_snoc, fold_left_app, map_app, concat_app. simpl.
  rewrite app_nil_r.
  destruct g; reflexivity.
Qed.

Lemma raw_line_single (w : WordInfo) :
  Segment.add_word new_line w = Group.raw_line [w].
Proof. exact (eq_sym (raw_line_snoc [] w)). Qed.

(** The pass returns the lines of the groups it forms. *)
Lemma pass_split (words : list WordInfo) :
  forall prev g,
    Segment.pass max_chars max_duration max_gap prev (Group.raw_line g) words
    = map Group.line_of (Group.split max_chars max_duration max_gap prev g words).
Proof.
  induction words as [|w words IH]; intros prev g; simpl.
  - destruct (truthy (Group.text g)); reflexivity.
  - destruct (Segment.breaks _ _ _ _ _ _); simpl.
    + rewrite raw_line_single, IH. reflexivity.
    + rewrite <- raw_line_snoc, IH. reflexivity.
Qed.

Lemma text_empty_words (g : list WordInfo) :
  truthy (Group.text g) = false -> Forall (fun w => word w = []) g.
Proof.
  unfold Group.text. induction g as [|w g IH]; simpl; intros H.
  - constructor.
  - destruct (word w) eqn:Hw; simpl in H; [|discriminate].
    constructor; auto.
Qed.

Lemma text_of_empty_words (g : list WordInfo) :
  Forall (fun w => word w = []) g -> Group.text g = [].
Proof.
  unfold Group.text. induction 1 as [|w g Hw _ IH]; simpl; [reflexivity|].
  rewrite Hw, IH. reflexivity.
Qed.

(** The groups are consecutive stretches of the words; what is left at the
    end is a run of words without text. *)
Lemma split_cover (words : list WordInfo) :
  forall prev g,
    exists dropped,
      g ++ words
      = concat (Group.split max_chars max_duration max_gap prev g words) ++ dropped
      /\ Forall (fun w => word w = []) dropped.
Proof.
  induction words as [|w words IH]; intros prev g; simpl.
  - destruct (truthy (Group.text g)) eqn:Ht.
    + exists []. simpl. rewrite !app_nil_r. split; [reflexivity | constructor].
    + exists g. simpl. rewrite app_nil_r. split; [reflexivity|].
      by apply text_empty_words.
  - destruct (Segment.breaks _ _ _ _ _ _).
    + destruct (IH (Some w) [w]) as (dropped & Heq & Hd).
      exists dropped. split; [|exact Hd].
      simpl. rewrite <- app_assoc, <- Heq. reflexivity.
    + destruct (IH (Some w) (g ++ [w])) as (dropped & Heq & Hd).
      exists dropped. split; [|exact Hd].
      rewrite <- Heq, <- app_assoc. reflexivity.
Qed.

(** Every group has text, hence at least one word. *)
Lemma split_texts (words : list WordInfo) :
  forall prev g,
    Forall (fun g' => truthy (Group.text g') = true)
      (Group.split max_chars max_duration max_gap prev g words).
Proof.
  induction words as [|w words IH]; intros prev g; simpl.
  - destruct (truthy (Group.text g)) eqn:Ht; repeat constructor. exact Ht.
  - destruct (Segment.breaks _ _ _ _ _ _) eqn:Hb.
    + constructor; [|apply IH].
      unfold Segment.breaks in Hb. simpl in Hb.
      by apply andb_true_iff in Hb as [Ht _].
    + apply IH.
Qed.

Lemma text_concat (gs : list (list WordInfo)) :
  Group.text (concat gs) = concat (map Group.text gs).
Proof.
  unfold Group.text. induction gs as [|g gs IH]; simpl; [reflexivity|].
  rewrite map_app, concat_app, IH. reflexivity.
Qed.

Lemma run_combine_words_groups (data : list WordInfo) :
  _run_combine_words data max_chars max_duration max_gap
  = Ok (map Group.line_of (Group.groups data max_chars max_duration max_gap)).
Proof.
  rewrite run_combine_words_segment. unfold Segment.segment, Group.groups.
  f_equal. exact (pass_split data None []).
Qed.

End GroupFacts.

(** The loop never raises: [data[i - 1]] is always in range. *)
Lemma for_enumerate_total (data : list WordInfo) (max_chars : Z)
    (max_duration max_gap : float) (rest visited more : list WordInfo)
    (st : Combine.LoopState) :
  data = visited ++ rest ++ more ->
  exists st',
    Combine.for_enumerate data max_chars max_duration max_gap
      (length visited) rest st = Ok st'.
Proof.
  revert visited st. induction rest as [|w rest IH]; intros visited st Hdata.
  - by exists st.
  - simpl.
    rewrite (loop_body_step data max_chars max_duration max_gap visited
               (rest ++ more) w st Hdata).
    simpl rbind.
    replace (S (length visited)) with (length (visited ++ [w]))
      by (rewrite length_app; simpl; lia).
    apply IH. rewrite Hdata, <- app_assoc. reflexivity.
Qed.

Lemma for_enumerate_snoc (data : list WordInfo) (max_chars : Z)
    (max_duration max_gap : float) (xs : list WordInfo) (w : WordInfo) :
  forall i st,
    Combine.for_enumerate data max_chars max_duration max_gap i (xs ++ [w]) st
    = rbind (Combine.for_enumerate data max_chars max_duration max_gap i xs st)
        (Combine.loop_body data max_chars max_duration max_gap (i + length xs) w).
Proof.
  induction xs as [|x xs IH]; intros i st; simpl.
  - rewrite Nat.add_0_r. destruct (Combine.loop_body _ _ _ _ _ _ _); reflexivity.
  - destruct (Combine.loop_body _ _ _ _ i x st) as [st1|e]; simpl; [|reflexivity].
    rewrite IH. replace (S i + length xs)%nat with (i + S (length xs))%nat by lia.
    reflexivity.
Qed.

(** C1.  [_run_combine_words] is the specified greedy pass.  Its result is
    that of [Segment.segment], the pass written after the specification; and
    at every index [i] with word [w], the loop state after [i] iterations
    (lines emitted so far and accumulator) becomes the state after [i + 1]
    iterations as follows: with the triggers computed on the accumulator as
    it stands before [w] ([time_hit]: accumulated duration plus
    [w.end - w.start] exceeds [max_duration]; [chars_hit]: accumulated length
    plus [len(w.text)] is at least [max_chars]; [gap_hit]: [w.start] minus
    the previous word's end, or 0 when [i = 0], exceeds [max_gap]), the
    accumulator is emitted with its text trimmed exactly when its text is not
    empty and a trigger fires, and [w] is folded into the accumulator, a new
    one after an emission. *)
Theorem run_combine_words_greedy_pass (data : list WordInfo) (max_chars : Z)
    (max_duration max_gap : float) :
  _run_combine_words data max_chars max_duration max_gap
  = Ok (Segment.segment data max_chars max_duration max_gap)
  /\ forall (i : nat) (w : WordInfo),
       data !! i = Some w ->
       exists st,
         Combine.loop_prefix data max_chars max_duration max_gap i = Ok st
         /\ let acc := Combine.current_line st in
            let prev := match i with O => None | S j => data !! j end in
            let time_hit :=
              (max_duration <? duration acc + (word_end w - word_start w))%float in
            let chars_hit := (max_chars <=? len (line acc) + len (word w))%Z in
            let gap_hit :=
              (max_gap <? match prev with
                          | Some p => word_start w - word_end p
                          | None => 0
                          end)%float in
            Combine.loop_prefix data max_chars max_duration max_gap (S i)
            = Ok (if truthy (line acc) && (time_hit || chars_hit || gap_hit)
                  then {| Combine.subtitle_lines :=
                            Combine.subtitle_lines st ++ [Segment.emit acc];
                          Combine.current_line := Segment.add_word new_line w |}
                  else {| Combine.subtitle_lines := Combine.subtitle_lines st;
                          Combine.current_line := Segment.add_word acc w |}).
Proof.
  split; [apply run_combine_words_segment|].
  intros i w Hi.
  assert (Hdata : data = take i data ++ w :: drop (S i) data).
  { rewrite <- (take_drop_middle data i w Hi) at 1. reflexivity. }
  assert (Hlen : length (take i data) = i).
  { apply length_take_le. apply lookup_lt_Some in Hi. lia. }
  destruct (for_enumerate_total data max_chars max_duration max_gap
              (take i data) [] (w :: drop (S i) data) Combine.init)
    as [st Hst]; [exact Hdata|].
  exists st. split; [exact Hst|].
  unfold Combine.loop_prefix. rewrite (take_S_r data i w Hi).
  rewrite for_enumerate_snoc. simpl in Hst. rewrite Hst. simpl rbind.
  rewrite Hlen.
  pose proof (loop_body_step data max_chars max_duration max_gap
                (take i data) (drop (S i) data) w st Hdata) as Hstep.
  rewrite Hlen in Hstep. rewrite Hstep.
  assert (Hprev : last (take i data) = match i with O => None | S j => data !! j end).
  { rewrite last_lookup, Hlen. destruct i as [|j]; simpl.
    - reflexivity.
    - apply lookup_take_lt. lia. }
  rewrite Hprev. reflexivity.
Qed.

(** The state reached at index 2 of the sample words, where the gap fires. *)
Lemma run_combine_words_greedy_pass_witness :
  exists st,
    Combine.loop_prefix Sample.hello_world_today 30 2.5 1.5 2 = Ok st
    /\ Combine.loop_prefix Sample.hello_world_today 30 2.5 1.5 3
       = Ok {| Combine.subtitle_lines :=
                 Combine.subtitle_lines st ++ [Segment.emit (Combine.current_line st)];
               Combine.current_line :=
                 Segment.add_word new_line (mkWord 3.0 3.4 (py "today")) |}.
Proof.
  destruct (proj2 (run_combine_words_greedy_pass Sample.hello_world_today 30 2.5 1.5)
              2%nat (mkWord 3.0 3.4 (py "today")) eq_refl) as (st & Hst & Hnext).
  exists st. split; [exact Hst|].
  rewrite Hnext.
  unfold Combine.loop_prefix in Hst. vm_compute in Hst.
  injection Hst as <-. vm_compute. reflexivity.
Defined.

(** C2, as amended.  For every word sequence, [_run_combine_words] returns
    lines whose texts are the trimmed texts of consecutive groups of the
    words; the untrimmed texts of the groups, joined in output order, are the
    words' texts joined in input order; and the groups, followed by a
    possibly empty run of final words that have no text, are the input, so
    no word is split or duplicated.  At least one line is returned when some
    word has a non-empty text. *)
Theorem run_combine_words_repartition (data : list WordInfo) (max_chars : Z)
    (max_duration max_gap : float) :
  exists lines,
    _run_combine_words data max_chars max_duration max_gap = Ok lines
    /\ (let gs := Group.groups data max_chars max_duration max_gap in
        map line lines = map (fun g => strip (Group.text g)) gs
        /\ concat (map Group.text gs) = concat (map word data)
        /\ exists dropped,
             data = concat gs ++ dropped
             /\ Forall (fun w => word w = []) dropped)
    /\ (Exists (fun w => word w <> []) data -> lines <> []).
Proof.
  exists (map Group.line_of (Group.groups data max_chars max_duration max_gap)).
  split; [apply run_combine_words_groups|].
  destruct (split_cover max_chars max_duration max_gap data None [])
    as (dropped & Hcover & Hdropped).
  simpl in Hcover. fold (Group.groups data max_chars max_duration max_gap) in Hcover.
  assert (Htexts :
    concat (map Group.text (Group.groups data max_chars max_duration max_gap))
    = concat (map word data)).
  { rewrite <- text_concat. change (concat (map word data)) with (Group.text data).
    rewrite Hcover at 2. unfold Group.text at 2.
    rewrite map_app, concat_app.
    fold (Group.text dropped).
    rewrite (text_of_empty_words dropped Hdropped), app_nil_r. reflexivity. }
  split; [cbv zeta; split; [|split]|].
  - rewrite map_map. reflexivity.
  - exact Htexts.
  - exists dropped. split; assumption.
  - intros Hsome Hnone.
    destruct (Group.groups data max_chars max_duration max_gap) as [|g gs];
      [|discriminate].
    simpl in Hcover. subst data.
    apply Exists_exists in Hsome as (w & Hin & Hw).
    rewrite Forall_forall in Hdropped. exact (Hw (Hdropped w Hin)).
Qed.

Lemma run_combine_words_repartition_witness :
  exists lines,
    _run_combine_words Sample.hello_world_today 30 2.5 1.5 = Ok lines
    /\ lines <> [].
Proof.
  destruct (run_combine_words_repartition Sample.hello_world_today 30 2.5 1.5)
    as (lines & Hrun & _ & Hsome).
  exists lines. split; [exact Hrun|].
  apply Hsome. apply Exists_cons_hd. vm_compute. discriminate.
Defined.

(** C2 as stated fails: a word sequence that is not empty, here one word
    whose text is the empty string, for which no line is returned. *)
Lemma run_combine_words_silent_word :
  Sample.silent_word <> []
  /\ _run_combine_words Sample.silent_word 30 2.5 1.5 = Ok [].
Proof. split; [discriminate | vm_compute; reflexivity]. Qed.

(** C5.  The three sample words with [max_chars = 30], [max_duration = 2.5]
    and [max_gap = 1.5] give exactly two lines: start 0.0, end 0.9, text
    "Hello world", and start 3.0, end 3.4, text "today". *)
Theorem run_combine_words_hello_world_today :
  _run_combine_words
    [ mkWord 0.0 0.4 (py "Hello ");
      mkWord 0.5 0.9 (py "world ");
      mkWord 3.0 3.4 (py "today") ] 30 2.5 1.5
  = Ok [ {| start := Some 0.0%float; end_ := Some 0.9%float;
            duration := 0.8%float; line := py "Hello world" |};
         {| start := Some 3.0%float; end_ := Some 3.4%float;
            duration := (3.4 - 3.0)%float; line := py "today" |} ].
Proof. vm_compute. reflexivity. Qed.

(** C6.  The duration of each returned line is the sum, added up word after
    word from 0.0, of [w.end - w.start] over the words of its group, the
    words folded into that line; its start is the first of these words'
    starts and its end the last one's end.  It is not [end - start]: two
    words with a pause between them give one line whose duration is smaller
    than its end minus its start. *)
Theorem line_duration_is_spoken_time :
  (forall (data : list WordInfo) (max_chars : Z) (max_duration max_gap : float),
     exists lines,
       _run_combine_words data max_chars max_duration max_gap = Ok lines
       /\ let gs := Group.groups data max_chars max_duration max_gap in
          map duration lines
          = map (fun g =>
                   fold_left (fun d w => (d + (word_end w - word_start w))%float)
                     g 0%float) gs
          /\ map start lines = map (fun g => option_map word_start (head g)) gs
          /\ map end_ lines = map (fun g => option_map word_end (last g)) gs
          /\ Forall (fun g => g <> []) gs
          /\ exists dropped,
               data = concat gs ++ dropped
               /\ Forall (fun w => word w = []) dropped)
  /\ exists l s e,
       _run_combine_words
         [ mkWord 0.0 0.4 (py "Hello "); mkWord 0.5 0.9 (py "world ") ]
         30 2.5 1.5 = Ok [l]
       /\ start l = Some s /\ end_ l = Some e
       /\ (duration l <? e - s)%float = true.
Proof.
  split.
  - intros data max_chars max_duration max_gap.
    exists (map Group.line_of (Group.groups data max_chars max_duration max_gap)).
    split; [apply run_combine_words_groups|]. cbv zeta.
    rewrite !map_map. repeat split; try reflexivity.
    + pose proof (split_texts max_chars max_duration max_gap data None []) as Ht.
      fold (Group.groups data max_chars max_duration max_gap) in Ht.
      eapply Forall_impl; [exact Ht|].
      intros g Hg ->. discriminate.
    + destruct (split_cover max_chars max_duration max_gap data None [])
        as (dropped & Hcover & Hdropped).
      exists dropped. split; [exact Hcover | exact Hdropped].
  - eexists _, _, _. vm_compute. repeat split; reflexivity.
Qed.

(** ** The pipeline: which store calls a run makes *)

Lemma generate_subtitles_writes (env : Env) (self : VideoCaption) (w : World) :
  exists k fs,
    k <= 3
    /\ snd (generate_subtitles env self w)
       = with_files fs (issue env (take k (checkpoints (job_id self))) w)
    /\ (forall u, fst (generate_subtitles env self w) = Ok u -> k = 3).
Proof.
  destruct w as [js os fs cs], env as [db ? ? ? ? ? ? ? ? ? ? ? ?].
  destruct db; unfold_pipeline.
  all: by_cases_with ltac:(rewrite run_combine_words_segment).
  all: first
      [ solve [exists 0, fs; split; [lia | split; [reflexivity | intros; discriminate]]]
      | solve [exists 1; eexists; split; [lia | split; [reflexivity | intros; discriminate]]]
      | solve [exists 2; eexists; split; [lia | split; [reflexivity | intros; discriminate]]]
      | solve [exists 3; eexists; split; [lia | split; [reflexivity | intros; reflexivity]]]
      ].
Qed.

Lemma issue_cons (env : Env) (c : DbCall) (calls : list DbCall) (w : World) :
  issue env (c :: calls) w = issue env calls (snd (db_execute env c w)).
Proof. reflexivity. Qed.

Lemma issue_app (env : Env) (calls1 calls2 : list DbCall) (w : World) :
  issue env (calls1 ++ calls2) w = issue env calls2 (issue env calls1 w).
Proof. unfold issue. apply fold_left_app. Qed.

Lemma db_calls_issue (env : Env) (calls : list DbCall) :
  forall w, db_calls (issue env calls w) = db_calls w ++ calls.
Proof.
  induction calls as [|c calls IH]; intros w.
  - by rewrite app_nil_r.
  - rewrite issue_cons, IH. unfold db_execute.
    destruct (db_available env && accepted c w); destruct c; simpl;
      by rewrite <- app_assoc.
Qed.

Lemma files_issue (env : Env) (calls : list DbCall) :
  forall w, files (issue env calls w) = files w.
Proof.
  induction calls as [|c calls IH]; intros w; [reflexivity|].
  rewrite issue_cons, IH. unfold db_execute.
  destruct (db_available env && accepted c w); destruct c; reflexivity.
Qed.

Lemma db_execute_issue (env : Env) (c : DbCall) (w : World) :
  db_execute env c w = (Ok (db_available env && accepted c w), issue env [c] w).
Proof.
  unfold issue, db_execute. simpl.
  destruct (db_available env && accepted c w); reflexivity.
Qed.

(** The store calls do not look at the files. *)
Lemma issue_with_files (env : Env) (fs : gset string) (calls : list DbCall) :
  forall w, issue env calls (with_files fs w) = with_files fs (issue env calls w).
Proof.
  induction calls as [|c calls IH]; intros w; [reflexivity|].
  rewrite !issue_cons, <- IH. f_equal.
  unfold db_execute.
  replace (accepted c (with_files fs w)) with (accepted c w)
    by (destruct c; reflexivity).
  destruct (db_available env && accepted c w); destruct c; reflexivity.
Qed.

Lemma process_video_with_subtitles_outcome (env : Env)
    (job_id input_path output_path : string) (opts : SubtitleOptions) (w : World) :
  process_video_with_subtitles env job_id input_path output_path opts w
  = match generate_subtitles env
            (mkVideoCaption job_id input_path output_path opts) w with
    | (Ok _, w1) => (Ok true, w1)
    | (Raise e, w1) => (Raise e, w1)
    end.
Proof.
  unfold process_video_with_subtitles, bind, ret.
  destruct (generate_subtitles _ _ _) as [[u|e] w1]; reflexivity.
Qed.

Lemma background_video_processing_outcome (env : Env)
    (job_id input_path output_path : string) (opts : SubtitleOptions) (w : World) :
  exists k fs,
    k <= 3
    /\ let w0 := issue env [UpdateStatus job_id (Status_value NotStarted) 10] w in
       let p := process_video_with_subtitles env job_id input_path
                  output_path opts w0 in
       let w2 :=
         issue env (take k (checkpoints job_id)
                    ++ [terminal_call env job_id (fst p)]) w0 in
       snd p = with_files fs (issue env (take k (checkpoints job_id)) w0)
       /\ (forall b, fst p = Ok b -> b = true /\ k = 3)
       /\ match background_video_processing env job_id input_path output_path
                  opts w with
          | (Ok _, w') => w' = with_files (files w') w2 /\ input_path ∉ files w'
          | (Raise e, w') =>
              w' = with_files (files w') w2
              /\ remove_error env input_path = Some e
          end.
Proof.
  set (w0 := issue env [UpdateStatus job_id (Status_value NotStarted) 10] w).
  destruct (generate_subtitles_writes env
              (mkVideoCaption job_id input_path output_path opts) w0)
    as (k & fs & Hk & Hw1 & Hok).
  exists k, fs. split; [exact Hk|]. cbv zeta. fold w0.
  rewrite process_video_with_subtitles_outcome.
  unfold background_video_processing, try_finally, try_except,
    update_job_status_db, update_job_completed_db, update_job_failed_db.
  unfold bind at 1 2 3. rewrite db_execute_issue. fold w0.
  rewrite process_video_with_subtitles_outcome.
  destruct (generate_subtitles _ _ w0) as [[u|e] w1]; simpl in Hw1, Hok;
    subst w1; cbn beta iota.
  all: split; [reflexivity|].
  all: unfold bind, ret, any_exception; rewrite db_execute_issue;
    cbn [fst snd terminal_call];
    rewrite issue_with_files, <- issue_app;
    unfold os_path_exists, os_remove; cbn [files with_files].
  all: split; [intros b Hb; first [discriminate | injection Hb as <-; eauto]|].
  all: destruct (bool_decide (input_path ∈ fs)) eqn:Hin;
    cbn [files with_files]; rewrite ?Hin;
    [destruct (remove_error env input_path) eqn:Hrm|];
    cbn [files with_files].
  all: split; [reflexivity|].
  all: try reflexivity.
  all: try (apply not_elem_of_difference; right; by apply elem_of_singleton).
  all: apply bool_decide_eq_false in Hin; exact Hin.
Qed.

(** What the calls of a run do to the row of the job. *)
Lemma row_after_run (env : Env) (job_id : string) (k : nat) (last_call : DbCall)
    (w : World) (row : JobRow) :
  db_available env = true ->
  jobs w !! job_id = Some row ->
  k <= 3 ->
  (exists t u, last_call = UpdateCompleted job_id t u)
  \/ (exists m, last_call = UpdateFailed job_id m) ->
  jobs (issue env (UpdateStatus job_id (Status_value NotStarted) 10
                   :: take k (checkpoints job_id) ++ [last_call]) w) !! job_id
  = Some {| Progress := call_progress last_call;
            Input_Path := Input_Path row;
            Output_Path := Output_Path row;
            Original_Filename := Original_Filename row;
            Created_At := Created_At row;
            Completed_At :=
              match last_call with
              | UpdateCompleted _ t _ => t
              | _ => Completed_At row
              end;
            Status_ID := call_status last_call;
            Download_URL :=
              match last_call with
              | UpdateCompleted _ _ u => u
              | _ => Download_URL row
              end;
            Failed_Message :=
              match last_call with
              | UpdateFailed _ m => m
              | _ => Failed_Message row
              end |}.
Proof.
  intros Hdb Hrow Hk Hlast.
  unfold issue, db_execute, checkpoints.
  destruct Hlast as [(t & u & ->) | (m & ->)];
    destruct k as [|[|[|[|k]]]]; try lia;
    cbn [take app fold_left accepted]; rewrite !Hdb;
    cbn [andb snd commit log_call jobs options files db_calls];
    rewrite !lookup_alter_eq, Hrow; reflexivity.
Qed.

(** A run of the background task, summed up: the calls it makes are the
    start write, the first [k] checkpoints and the terminal call chosen by
    the outcome of the pipeline; the tables are what these calls make of
    them; the input file is gone unless deleting it raised, which is the only
    way for the task itself to raise. *)
Lemma background_video_processing_summary (env : Env)
    (job_id input_path output_path : string) (opts : SubtitleOptions) (w : World) :
  exists k fs,
    k <= 3
    /\ let w0 := issue env [UpdateStatus job_id (Status_value NotStarted) 10] w in
       let p := process_video_with_subtitles env job_id input_path
                  output_path opts w0 in
       let run := background_video_processing env job_id input_path
                    output_path opts w in
       let calls :=
         UpdateStatus job_id (Status_value NotStarted) 10
         :: take k (checkpoints job_id) ++ [terminal_call env job_id (fst p)] in
       snd p = with_files fs (issue env (take k (checkpoints job_id)) w0)
       /\ (forall b, fst p = Ok b -> b = true /\ k = 3)
       /\ calls_since w (snd run) = calls
       /\ jobs (snd run) = jobs (issue env calls w)
       /\ (remove_error env input_path = None -> input_path ∉ files (snd run))
       /\ (forall e, fst run = Raise e -> remove_error env input_path = Some e).
Proof.
  destruct (background_video_processing_outcome env job_id input_path
              output_path opts w) as (k & fs & Hk & Hp & Hb & Hrun).
  exists k, fs. split; [exact Hk|]. cbv zeta in *.
  split; [exact Hp|]. split; [exact Hb|].
  rewrite <- issue_app in Hrun. simpl app in Hrun.
  destruct (background_video_processing _ _ _ _ _ w) as [[u|e] w'];
    destruct Hrun as [Hw' Hin]; cbn [fst snd].
  all: assert (Hcalls : db_calls w' = db_calls w ++
         UpdateStatus job_id (Status_value NotStarted) 10
         :: take k (checkpoints job_id)
            ++ [terminal_call env job_id
                  (fst (process_video_with_subtitles env job_id input_path
                          output_path opts
                          (issue env [UpdateStatus job_id (Status_value NotStarted) 10] w)))])
    by (rewrite Hw'; cbn [with_files db_calls]; apply db_calls_issue).
  all: unfold calls_since; rewrite Hcalls, drop_app_length.
  all: split; [reflexivity|].
  all: split; [rewrite Hw' at 1; reflexivity|].
  all: split; [|intros e' He'; congruence].
  - intros _. exact Hin.
  - intros Hnone. congruence.
Qed.

(** ** The pipeline, stage by stage *)

(** Audio extraction reports failure (the video is missing, or ffmpeg
    raised its own error): the pipeline raises before any checkpoint. *)
Lemma generate_subtitles_no_audio (env : Env) (self : VideoCaption) (w : World) :
  let audio := temp_path env (path_stem env (input_file_path self) +:+ ".mp3") in
  input_file_path self ∉ files w
  \/ (exists e, ffmpeg_run env (input_file_path self) audio = Some e
                /\ is_ffmpeg_error e = true) ->
  generate_subtitles env self w
  = (Raise (mkExn ValueError
              ("Failed to convert video to audio: " +:+ input_file_path self)),
     w).
Proof.
  cbv zeta. intros Hcause.
  unfold generate_subtitles, _convert_video_to_mp3, _run_ffmpeg_conversion,
    try_except, bind, ret, raise, os_path_exists.
  destruct (bool_decide (input_file_path self ∈ files w)) eqn:Hin; cbn [negb].
  - destruct Hcause as [Hnot | (e & Hff & Herr)].
    + apply bool_decide_eq_true in Hin. contradiction.
    + rewrite Hff, Herr. reflexivity.
  - reflexivity.
Qed.

(** Transcription raises: one checkpoint is written, and the audio file
    that was extracted stays. *)
Lemma generate_subtitles_transcription_fails (env : Env) (self : VideoCaption)
    (w : World) (e : Exn) :
  let audio := temp_path env (path_stem env (input_file_path self) +:+ ".mp3") in
  input_file_path self ∈ files w ->
  ffmpeg_run env (input_file_path self) audio = None ->
  whisper env audio = Raise e ->
  generate_subtitles env self w
  = (Raise e,
     with_files ({[audio]} ∪ files w)
       (issue env [UpdateStatus (job_id self) (Status_value Processing) 25] w)).
Proof.
  cbv zeta. intros Hin Hff Hwh.
  unfold generate_subtitles, _convert_video_to_mp3, _set_raw_output,
    _run_ffmpeg_conversion, update_job_status_db,
    try_except, bind, lift, ret, raise, os_path_exists, create_file.
  rewrite (bool_decide_eq_true_2 _ Hin). cbn [negb]. rewrite Hff.
  cbn beta iota. rewrite db_execute_issue. cbn beta iota.
  rewrite Hwh. f_equal.
  exact (issue_with_files env _ [_] w).
Qed.

(** Lines have their times once a word is in them. *)
Lemma line_of_times (g : list WordInfo) :
  g <> [] ->
  exists s e, start (Group.line_of g) = Some s /\ end_ (Group.line_of g) = Some e.
Proof.
  intros Hg. destruct g as [|w g] using rev_ind; [contradiction|].
  unfold Group.line_of, Group.raw_line, Segment.emit. cbn [start end_].
  rewrite last_snoc. destruct g; simpl; eauto.
Qed.

Lemma caption_layers_built (env : Env) (frame_size : Z * Z)
    (opts : SubtitleOptions) (position : string * float)
    (lines : list LineInfo) :
  fst position = "center" ->
  (forall text, text_clip env text = None) ->
  Forall (fun l => exists s e, start l = Some s /\ end_ l = Some e) lines ->
  forall layers0,
    exists layers,
      caption_layers env frame_size opts position lines layers0 = Ok layers.
Proof.
  intros Hcenter Hclip Hlines.
  induction Hlines as [|l lines (s & e & Hs & He) _ IH];
    intros layers0; simpl.
  - by exists layers0.
  - unfold _create_caption_clip, _add_shadow_caption, new_text_clip.
    rewrite Hs, He. cbn [rbind]. rewrite Hclip, Hcenter.
    destruct (shadow opts); cbn [rbind String.eqb Ascii.eqb Bool.eqb];
      apply IH.
Qed.

(** Every stage works: the pipeline returns. *)
Lemma generate_subtitles_returns (env : Env) (self : VideoCaption) (w : World)
    (words : list WordInfo) (size : Z * Z) :
  let audio := temp_path env (path_stem env (input_file_path self) +:+ ".mp3") in
  input_file_path self ∈ files w ->
  ffmpeg_run env (input_file_path self) audio = None ->
  whisper env audio = Ok words ->
  video_file_clip env (input_file_path self) = Ok size ->
  (exists p, Position_of_value (position_id (subtitle_options self)) = Ok p) ->
  (forall text, text_clip env text = None) ->
  write_videofile env (output_file_path self) = None ->
  remove_error env audio = None ->
  fst (generate_subtitles env self w) = Ok tt.
Proof.
  cbv zeta. intros Hin Hff Hwh Hsize (p & Hpos) Hclip Hrender Hrm.
  unfold generate_subtitles, _convert_video_to_mp3, _set_raw_output,
    _combine_words, _run_ffmpeg_conversion, _render_output_video,
    update_job_status_db, try_except, bind, lift, ret, raise,
    os_path_exists, os_remove, create_file.
  rewrite (bool_decide_eq_true_2 _ Hin). cbn [negb]. rewrite Hff.
  cbn beta iota. rewrite db_execute_issue. cbn beta iota.
  rewrite Hwh, db_execute_issue. cbn beta iota.
  rewrite run_combine_words_groups, db_execute_issue. cbn beta iota.
  rewrite Hsize. cbn beta iota.
  unfold _create_caption. rewrite Hpos. cbn [rbind].
  assert (Htimes :
    Forall (fun l => exists s e, start l = Some s /\ end_ l = Some e)
      (map Group.line_of
         (Group.groups words (max_chars (subtitle_options self))
            (max_duration (subtitle_options self))
            (max_gap (subtitle_options self))))).
  { apply List.Forall_forall. intros l Hl.
    apply in_map_iff in Hl as (g & <- & Hg).
    apply line_of_times.
    pose proof (split_texts (max_chars (subtitle_options self))
                  (max_duration (subtitle_options self))
                  (max_gap (subtitle_options self)) words None []) as Ht.
    rewrite List.Forall_forall in Ht. specialize (Ht g Hg).
    intros ->. discriminate. }
  destruct (caption_layers_built env size (subtitle_options self)
              (_get_position (snd size) p) _
              ltac:(destruct p; reflexivity) Hclip Htimes [])
    as [layers ->].
  rewrite Hrender. cbn [files fst].
  rewrite !files_issue. cbn [files].
  rewrite bool_decide_eq_true_2 by set_solver.
  cbn [files]. rewrite ?files_issue. cbn [files].
  rewrite bool_decide_eq_true_2 by set_solver.
  rewrite Hrm. reflexivity.
Qed.

(** Every stage up to the rendering works: what is left is the deletion of
    the audio file, which decides how [generate_subtitles] ends. *)
Lemma generate_subtitles_rendered (env : Env) (self : VideoCaption) (w : World)
    (words : list WordInfo) (size : Z * Z) :
  let audio := temp_path env (path_stem env (input_file_path self) +:+ ".mp3") in
  input_file_path self ∈ files w ->
  ffmpeg_run env (input_file_path self) audio = None ->
  whisper env audio = Ok words ->
  video_file_clip env (input_file_path self) = Ok size ->
  (exists p, Position_of_value (position_id (subtitle_options self)) = Ok p) ->
  (forall text, text_clip env text = None) ->
  write_videofile env (output_file_path self) = None ->
  let rendered := {[output_file_path self]} ∪ ({[audio]} ∪ files w) in
  generate_subtitles env self w
  = match remove_error env audio with
    | None =>
        (Ok tt,
         with_files (rendered ∖ {[audio]})
           (issue env (checkpoints (job_id self)) w))
    | Some e =>
        (Raise e,
         with_files rendered (issue env (checkpoints (job_id self)) w))
    end.
Proof.
  cbv zeta. intros Hin Hff Hwh Hsize (p & Hpos) Hclip Hrender.
  unfold generate_subtitles, _convert_video_to_mp3, _set_raw_output,
    _combine_words, _run_ffmpeg_conversion, _render_output_video,
    update_job_status_db, try_except, bind, lift, ret, raise,
    os_path_exists, os_remove, create_file.
  rewrite (bool_decide_eq_true_2 _ Hin). cbn [negb]. rewrite Hff.
  cbn beta iota. rewrite db_execute_issue. cbn beta iota.
  rewrite Hwh, db_execute_issue. cbn beta iota.
  rewrite run_combine_words_groups, db_execute_issue. cbn beta iota.
  rewrite Hsize. cbn beta iota.
  unfold _create_caption. rewrite Hpos. cbn [rbind].
  assert (Htimes :
    Forall (fun l => exists s e, start l = Some s /\ end_ l = Some e)
      (map Group.line_of
         (Group.groups words (max_chars (subtitle_options self))
            (max_duration (subtitle_options self))
            (max_gap (subtitle_options self))))).
  { apply List.Forall_forall. intros l Hl.
    apply in_map_iff in Hl as (g & <- & Hg).
    apply line_of_times.
    pose proof (split_texts (max_chars (subtitle_options self))
                  (max_duration (subtitle_options self))
                  (max_gap (subtitle_options self)) words None []) as Ht.
    rewrite List.Forall_forall in Ht. specialize (Ht g Hg).
    intros ->. discriminate. }
  destruct (caption_layers_built env size (subtitle_options self)
              (_get_position (snd size) p) _
              ltac:(destruct p; reflexivity) Hclip Htimes [])
    as [layers ->].
  rewrite Hrender. cbn [files fst].
  rewrite !files_issue. cbn [files].
  rewrite bool_decide_eq_true_2 by set_solver.
  cbn [files]. rewrite ?files_issue. cbn [files].
  rewrite bool_decide_eq_true_2 by set_solver.
  change {| jobs := jobs w; options := options w;
            files := {[temp_path env (path_stem env (input_file_path self) +:+ ".mp3")]}
                     ∪ files w;
            db_calls := db_calls w |}
    with (with_files
            ({[temp_path env (path_stem env (input_file_path self) +:+ ".mp3")]}
             ∪ files w) w).
  destruct (remove_error env _); f_equal;
    rewrite !issue_with_files, <- !issue_app; reflexivity.
Qed.

(** The same for the pipeline of a job. *)
Lemma process_video_with_subtitles_rendered (env : Env)
    (jid inp out : string) (opts : SubtitleOptions) (w : World)
    (words : list WordInfo) (size : Z * Z) (p : Position) :
  let audio := temp_path env (path_stem env inp +:+ ".mp3") in
  inp ∈ files w ->
  ffmpeg_run env inp audio = None ->
  whisper env audio = Ok words ->
  video_file_clip env inp = Ok size ->
  Position_of_value (position_id opts) = Ok p ->
  (forall text, text_clip env text = None) ->
  write_videofile env out = None ->
  let rendered := {[out]} ∪ ({[audio]} ∪ files w) in
  process_video_with_subtitles env jid inp out opts w
  = match remove_error env audio with
    | None =>
        (Ok true,
         with_files (rendered ∖ {[audio]}) (issue env (checkpoints jid) w))
    | Some e =>
        (Raise e, with_files rendered (issue env (checkpoints jid) w))
    end.
Proof.
  cbv zeta. intros Hin Hff Hwh Hsize Hpos Hclip Hrender.
  rewrite process_video_with_subtitles_outcome.
  rewrite (generate_subtitles_rendered env (mkVideoCaption jid inp out opts) w
             words size Hin Hff Hwh Hsize (ex_intro _ p Hpos) Hclip Hrender).
  cbn [job_id input_file_path output_file_path].
  destruct (remove_error env _); reflexivity.
Qed.

(** The files after a run: those the pipeline left, less the input file
    when it is there and can be deleted. *)
Lemma background_video_processing_files (env : Env)
    (job_id input_path output_path : string) (opts : SubtitleOptions) (w : World) :
  let fs1 :=
    files (snd (process_video_with_subtitles env job_id input_path output_path
                  opts
                  (issue env [UpdateStatus job_id (Status_value NotStarted) 10] w))) in
  files (snd (background_video_processing env job_id input_path output_path
                opts w))
  = if bool_decide (input_path ∈ fs1)
    then match remove_error env input_path with
         | Some _ => fs1
         | None => fs1 ∖ {[input_path]}
         end
    else fs1.
Proof.
  cbv zeta.
  unfold background_video_processing, try_finally, try_except,
    update_job_status_db, update_job_completed_db, update_job_failed_db.
  unfold bind at 1 2 3. rewrite db_execute_issue.
  rewrite process_video_with_subtitles_outcome.
  destruct (generate_subtitles _ _ _) as [[u|e] w1]; cbn beta iota.
  all: unfold bind, ret, any_exception; rewrite db_execute_issue;
    cbn [fst snd]; unfold os_path_exists, os_remove;
    rewrite !files_issue.
  all: destruct (bool_decide (input_path ∈ files w1)) eqn:Hin;
    rewrite ?files_issue, ?Hin;
    [destruct (remove_error env input_path)|]; cbn [snd files];
    rewrite ?files_issue; reflexivity.
Qed.
(** ** The pipeline: the job's writes on success and on failure *)

Lemma update_job_status_db_issue (env : Env) (job_id : string)
    (status_id progress : Z) (w : World) :
  snd (update_job_status_db env job_id status_id progress w)
  = issue env [UpdateStatus job_id status_id progress] w.
Proof. reflexivity. Qed.

(** When the pipeline returns normally, the calls the background task
    makes for the job are exactly, in this order: (NotStarted, 10),
    (Processing, 25), (Processing, 50), (Processing, 65), and the completing
    call; their progress values increase strictly; with the database up and
    the job's row present, the row ends with exactly four fields changed. *)
Lemma pipeline_returns_run_writes (env : Env)
    (job_id input_path output_path : string) (opts : SubtitleOptions)
    (w : World) (success : bool) (w1 : World) :
  process_video_with_subtitles env job_id input_path output_path opts
    (snd (update_job_status_db env job_id (Status_value NotStarted) 10 w))
  = (Ok success, w1) ->
  let w' := snd (background_video_processing env job_id input_path
                   output_path opts w) in
  let url := "/jobs/" +:+ job_id +:+ "/download" in
  calls_since w w'
  = [ UpdateStatus job_id (Status_value NotStarted) 10;
      UpdateStatus job_id (Status_value Processing) 25;
      UpdateStatus job_id (Status_value Processing) 50;
      UpdateStatus job_id (Status_value Processing) 65;
      UpdateCompleted job_id (now env) url ]
  /\ url <> EmptyString
  /\ StronglySorted Z.lt (map call_progress (calls_since w w'))
  /\ (db_available env = true ->
      forall row, jobs w !! job_id = Some row ->
        jobs w' !! job_id
        = Some {| Progress := 100;
                  Input_Path := Input_Path row;
                  Output_Path := Output_Path row;
                  Original_Filename := Original_Filename row;
                  Created_At := Created_At row;
                  Completed_At := now env;
                  Status_ID := Status_value Completed;
                  Download_URL := url;
                  Failed_Message := Failed_Message row |}).
Proof.
  intros Hp. cbv zeta.
  destruct (background_video_processing_summary env job_id input_path
              output_path opts w)
    as (k & fs & Hk & _ & Hb & Hcalls & Hjobs & _ & _).
  cbv zeta in *. rewrite update_job_status_db_issue in Hp.
  rewrite Hp in *. cbn [fst terminal_call] in *.
  destruct (Hb success eq_refl) as [_ ->].
  rewrite Hcalls. split; [reflexivity|].
  split; [discriminate|].
  split.
  - cbn. repeat constructor; lia.
  - intros Hdb row Hrow. rewrite Hjobs.
    rewrite (row_after_run env job_id 3 _ w row Hdb Hrow); [reflexivity|lia|].
    left. eauto.
Qed.

(** C3.  A run in which every stage succeeds: the input file is there,
    ffmpeg extracts the audio, Whisper returns the words, the video opens,
    the position is valid, every text clip is built and the rendering is
    written.  The calls for the job are then (NotStarted, 10),
    (Processing, 25), (Processing, 50), (Processing, 65) and one terminal
    call, and which one depends on the deletion of the extracted audio, the
    last statement of [generate_subtitles].  When the deletion works, the
    terminal call stores Completed, progress 100, the completion time and
    the download URL [/jobs/<id>/download], and progress increases strictly.
    When [os.remove] raises [e] there, the handler of the background task
    takes it for a failure of the pipeline: the terminal call marks the job
    Failed with progress 0 and the message ["Error: " + str(e)], no call
    stores Completed, and the rendered video is on disk. *)
Theorem succeeding_stages_run_writes (env : Env)
    (job_id input_path output_path : string) (opts : SubtitleOptions)
    (w : World) (words : list WordInfo) (size : Z * Z) (p : Position) :
  let audio := temp_path env (path_stem env input_path +:+ ".mp3") in
  input_path ∈ files w ->
  ffmpeg_run env input_path audio = None ->
  whisper env audio = Ok words ->
  video_file_clip env input_path = Ok size ->
  Position_of_value (position_id opts) = Ok p ->
  (forall text, text_clip env text = None) ->
  write_videofile env output_path = None ->
  let w' := snd (background_video_processing env job_id input_path
                   output_path opts w) in
  let url := "/jobs/" +:+ job_id +:+ "/download" in
  (remove_error env audio = None ->
   calls_since w w'
   = [ UpdateStatus job_id (Status_value NotStarted) 10;
       UpdateStatus job_id (Status_value Processing) 25;
       UpdateStatus job_id (Status_value Processing) 50;
       UpdateStatus job_id (Status_value Processing) 65;
       UpdateCompleted job_id (now env) url ]
   /\ url <> EmptyString
   /\ StronglySorted Z.lt (map call_progress (calls_since w w'))
   /\ (db_available env = true ->
       forall row, jobs w !! job_id = Some row ->
         jobs w' !! job_id
         = Some {| Progress := 100;
                   Input_Path := Input_Path row;
                   Output_Path := Output_Path row;
                   Original_Filename := Original_Filename row;
                   Created_At := Created_At row;
                   Completed_At := now env;
                   Status_ID := Status_value Completed;
                   Download_URL := url;
                   Failed_Message := Failed_Message row |}))
  /\ (forall e, remove_error env audio = Some e ->
      calls_since w w'
      = [ UpdateStatus job_id (Status_value NotStarted) 10;
          UpdateStatus job_id (Status_value Processing) 25;
          UpdateStatus job_id (Status_value Processing) 50;
          UpdateStatus job_id (Status_value Processing) 65;
          UpdateFailed job_id ("Error: " +:+ exn_str e) ]
      /\ Forall (fun c => call_status c <> Status_value Completed)
           (calls_since w w')
      /\ (db_available env = true ->
          forall row, jobs w !! job_id = Some row ->
            jobs w' !! job_id
            = Some {| Progress := 0;
                      Input_Path := Input_Path row;
                      Output_Path := Output_Path row;
                      Original_Filename := Original_Filename row;
                      Created_At := Created_At row;
                      Completed_At := Completed_At row;
                      Status_ID := Status_value Failed;
                      Download_URL := Download_URL row;
                      Failed_Message := "Error: " +:+ exn_str e |})
      /\ (output_path <> input_path -> output_path ∈ files w')).
Proof.
  cbv zeta. intros Hin Hff Hwh Hsize Hpos Hclip Hrender.
  set (w0 := issue env [UpdateStatus job_id (Status_value NotStarted) 10] w).
  assert (Hin0 : input_path ∈ files w0)
    by (unfold w0; rewrite files_issue; exact Hin).
  pose proof (process_video_with_subtitles_rendered env job_id input_path
                output_path opts w0 words size p Hin0 Hff Hwh Hsize Hpos
                Hclip Hrender) as Hp.
  cbv zeta in Hp.
  split.
  - intros Hrm. rewrite Hrm in Hp.
    exact (pipeline_returns_run_writes env job_id input_path output_path opts
             w true _ Hp).
  - intros e Hrm. rewrite Hrm in Hp.
    pose proof (background_video_processing_files env job_id input_path
                  output_path opts w) as Hfiles.
    destruct (background_video_processing_summary env job_id input_path
                output_path opts w)
      as (k & fs & Hk & Hw1 & _ & Hcalls & Hjobs & _ & _).
    cbv zeta in *. fold w0 in Hw1, Hcalls, Hjobs, Hfiles.
    rewrite Hp in *. cbn [fst snd terminal_call] in *.
    assert (Hk3 : k = 3).
    { apply (f_equal db_calls) in Hw1. cbn [with_files db_calls] in Hw1.
      rewrite !db_calls_issue in Hw1. apply app_inv_head in Hw1.
      apply (f_equal length) in Hw1. rewrite length_take in Hw1.
      cbn [checkpoints length] in Hw1. lia. }
    subst k.
    split; [exact Hcalls|].
    split; [rewrite Hcalls; repeat constructor; discriminate|].
    split.
    + intros Hdb row Hrow. rewrite Hjobs.
      exact (row_after_run env job_id 3 _ w row Hdb Hrow ltac:(lia)
               ltac:(right; eauto)).
    + intros Hne. rewrite Hfiles. cbn [with_files files].
      assert (Hout : output_path
                     ∈ ({[output_path]}
                        ∪ ({[temp_path env (path_stem env input_path +:+ ".mp3")]}
                           ∪ files w0) : gset string))
        by (apply elem_of_union; left; by apply elem_of_singleton).
      destruct (bool_decide _); [|exact Hout].
      destruct (remove_error env input_path); [exact Hout|].
      apply elem_of_difference. split; [exact Hout|].
      intros Hx. apply elem_of_singleton in Hx. contradiction.
Qed.

Lemma succeeding_stages_run_writes_witness :
  let w := Sample.created Sample.env_audio_locked Sample.default_options in
  let w' := snd (background_video_processing Sample.env_audio_locked "j1"
                   Sample.input_path Sample.output_path
                   Sample.default_options w) in
  calls_since w w'
  = [ UpdateStatus "j1" 1 10; UpdateStatus "j1" 2 25; UpdateStatus "j1" 2 50;
      UpdateStatus "j1" 2 65;
      UpdateFailed "j1" "Error: Permission denied" ]
  /\ Forall (fun c => call_status c <> 3%Z) (calls_since w w')
  /\ (Sample.output_path ∈ files w').
Proof.
  cbv zeta.
  destruct (succeeding_stages_run_writes Sample.env_audio_locked "j1"
              Sample.input_path Sample.output_path Sample.default_options
              (Sample.created Sample.env_audio_locked Sample.default_options)
              Sample.hello_world_today (640, 480)%Z bottom
              ltac:(vm_compute; reflexivity) eq_refl eq_refl eq_refl eq_refl
              (fun _ => eq_refl) eq_refl)
    as [_ Hfailed].
  destruct (Hfailed (mkExn OSError "Permission denied") eq_refl)
    as (Hcalls & Hnever & _ & Hout).
  split; [exact Hcalls|]. split; [exact Hnever|].
  apply Hout. vm_compute. discriminate.
Defined.



(** C9.  [process_video_with_subtitles] returns [True] whenever it returns,
    so the [else] branch of [background_video_processing] is never taken;
    and every call of a run that marks a job failed is for the job of the
    run and carries ["Error: " + str(e)], where [e] is the exception the
    pipeline raised: it comes from the exception handler. *)
Theorem failure_only_from_handler (env : Env)
    (job_id input_path output_path : string) (opts : SubtitleOptions) :
  (forall w success w1,
     process_video_with_subtitles env job_id input_path output_path opts w
     = (Ok success, w1) ->
     success = true)
  /\ forall w id message,
       In (UpdateFailed id message)
          (calls_since w (snd (background_video_processing env job_id
                                 input_path output_path opts w))) ->
       id = job_id
       /\ exists e w1,
            process_video_with_subtitles env job_id input_path output_path opts
              (snd (update_job_status_db env job_id (Status_value NotStarted) 10 w))
            = (Raise e, w1)
            /\ message = "Error: " +:+ exn_str e.
Proof.
  split.
  - intros w success w1. rewrite process_video_with_subtitles_outcome.
    destruct (generate_subtitles _ _ w) as [[u|e] w2]; congruence.
  - intros w id message Hin.
    destruct (background_video_processing_summary env job_id input_path
                output_path opts w)
      as (k & fs & Hk & _ & _ & Hcalls & _).
    cbv zeta in Hcalls. rewrite Hcalls in Hin. clear Hcalls.
    rewrite update_job_status_db_issue.
    destruct (process_video_with_subtitles env job_id input_path output_path
                opts _) as [[b|e] w1]; cbn [fst terminal_call] in Hin.
    + destruct k as [|[|[|[|k]]]]; try lia; simpl in Hin;
        intuition discriminate.
    + assert (Hlast : UpdateFailed id message
                      = UpdateFailed job_id ("Error: " +:+ exn_str e)).
      { destruct k as [|[|[|[|k]]]]; try lia; simpl in Hin;
          intuition (discriminate || congruence). }
      injection Hlast as -> ->. split; [reflexivity|]. by exists e, w1.
Qed.

(** ** Invalid positions *)






(** ** Temporary files *)

Lemma remove_quietly_swallows (env : Env) (file_path : string) (w : World) :
  exists w',
    remove_quietly env file_path w = (Ok tt, w')
    /\ jobs w' = jobs w /\ options w' = options w /\ db_calls w' = db_calls w.
Proof.
  unfold remove_quietly, try_except, os_remove, ret.
  destruct (bool_decide (file_path ∈ files w));
    [destruct (remove_error env file_path)|]; eexists; repeat split.
Qed.

Lemma for_each_remove_quietly (env : Env) (paths : list string) :
  forall w,
    exists w',
      for_each_path (remove_quietly env) paths w = (Ok tt, w')
      /\ jobs w' = jobs w /\ options w' = options w /\ db_calls w' = db_calls w.
Proof.
  induction paths as [|p paths IH]; intros w; simpl.
  - exists w. repeat split.
  - unfold bind.
    destruct (remove_quietly_swallows env p w) as (w1 & -> & Hj & Ho & Hc).
    destruct (IH w1) as (w2 & -> & Hj2 & Ho2 & Hc2).
    exists w2. repeat split; congruence.
Qed.

(** C7, at a failing run.  Transcription raises after the audio was
    extracted: the task ends normally with the job marked Failed, and the
    extracted audio file is still on disk.  In the run where every stage
    works, the audio file is removed. *)
Theorem audio_file_left_by_failed_run :
  (let w := Sample.created Sample.env_whisper_fails Sample.default_options in
   let run := background_video_processing Sample.env_whisper_fails "j1"
                Sample.input_path Sample.output_path Sample.default_options w in
   fst run = Ok tt
   /\ last (db_calls (snd run))
      = Some (UpdateFailed "j1" "Error: model could not be loaded")
   /\ (Status_ID <$> jobs (snd run) !! "j1") = Some (Status_value Failed)
   /\ elements (files (snd run)) = [Sample.audio_path])
  /\ (let w := Sample.created Sample.env_ok Sample.default_options in
      let run := background_video_processing Sample.env_ok "j1"
                   Sample.input_path Sample.output_path Sample.default_options w in
      fst run = Ok tt
      /\ (Status_ID <$> jobs (snd run) !! "j1") = Some (Status_value Completed)
      /\ elements (files (snd run)) = [Sample.output_path]).
Proof. vm_compute. repeat split; reflexivity. Qed.

(** C8, at two failing runs.  [cleanup_temp_files] does drop every error of
    [os.remove] and leaves the tables alone.  But when the input file cannot
    be deleted, the error leaves [background_video_processing]; and when the
    audio file cannot be deleted after a rendering that worked, the job is
    marked Failed with the deletion error as its message. *)
Theorem cleanup_failure_not_swallowed :
  (forall env w,
     exists w',
       cleanup_temp_files env w = (Ok tt, w')
       /\ jobs w' = jobs w /\ options w' = options w
       /\ db_calls w' = db_calls w)
  /\ (let w := Sample.created Sample.env_input_locked Sample.default_options in
      let run := background_video_processing Sample.env_input_locked "j1"
                   Sample.input_path Sample.output_path Sample.default_options w in
      fst run = Raise (mkExn OSError "Permission denied")
      /\ (Status_ID <$> jobs (snd run) !! "j1") = Some (Status_value Completed))
  /\ (let w := Sample.created Sample.env_audio_locked Sample.default_options in
      let run := background_video_processing Sample.env_audio_locked "j1"
                   Sample.input_path Sample.output_path Sample.default_options w in
      fst run = Ok tt
      /\ last (db_calls (snd run))
         = Some (UpdateFailed "j1" "Error: Permission denied")
      /\ (Status_ID <$> jobs (snd run) !! "j1") = Some (Status_value Failed)
      /\ Sample.output_path ∈ files (snd run)
      /\ Sample.audio_path ∈ files (snd run)).
Proof.
  split.
  - intros env w. unfold cleanup_temp_files. apply for_each_remove_quietly.
  - vm_compute. repeat split; reflexivity.
Qed.

(** ** More on the segmentation *)

(** X1.  No words give no lines; one word gives one line with the word's
    times, the duration [0.0 + (end - start)] and the word's text trimmed,
    and no line at all when the word's text is empty. *)
Theorem run_combine_words_short_inputs (max_chars : Z)
    (max_duration max_gap : float) :
  _run_combine_words [] max_chars max_duration max_gap = Ok []
  /\ forall w,
       _run_combine_words [w] max_chars max_duration max_gap
       = Ok (if truthy (word w)
             then [ {| start := Some (word_start w);
                       end_ := Some (word_end w);
                       duration := (0 + (word_end w - word_start w))%float;
                       line := strip (word w) |} ]
             else []).
Proof.
  split; [reflexivity|].
  intros w. rewrite run_combine_words_groups.
  unfold Group.groups. simpl. unfold Group.text. simpl.
  rewrite app_nil_r. destruct (truthy (word w)); [|reflexivity].
  unfold Group.line_of, Group.raw_line, Segment.emit, Group.text. simpl.
  rewrite app_nil_r. reflexivity.
Qed.

(** The pass over words followed by [p]: the groups closed so far, and an
    accumulator that ends with [p]. *)
Lemma split_through (max_chars : Z) (max_duration max_gap : float)
    (xs : list WordInfo) (p : WordInfo) :
  forall prev g,
    exists gs g0,
      g ++ xs ++ [p] = concat gs ++ g0 ++ [p]
      /\ forall ys,
           Group.split max_chars max_duration max_gap prev g (xs ++ p :: ys)
           = gs ++ Group.split max_chars max_duration max_gap (Some p)
                     (g0 ++ [p]) ys.
Proof.
  induction xs as [|x xs IH]; intros prev g; simpl.
  - destruct (Segment.breaks max_chars max_duration max_gap prev
                (Group.raw_line g) p).
    + exists [g], []. split; [simpl; by rewrite app_nil_r|]. reflexivity.
    + exists [], g. split; reflexivity.
  - destruct (Segment.breaks max_chars max_duration max_gap prev
                (Group.raw_line g) x).
    + destruct (IH (Some x) [x]) as (gs & g0 & Hcat & Hsplit).
      exists (g :: gs), g0. split.
      * simpl. rewrite <- app_assoc, <- Hcat. reflexivity.
      * intros ys. rewrite Hsplit. reflexivity.
    + destruct (IH (Some x) (g ++ [x])) as (gs & g0 & Hcat & Hsplit).
      exists gs, g0. split.
      * rewrite <- Hcat, <- app_assoc. reflexivity.
      * exact Hsplit.
Qed.

Lemma text_snoc (g : list WordInfo) (w : WordInfo) :
  Group.text (g ++ [w]) = Group.text g ++ word w.
Proof.
  unfold Group.text. rewrite map_app, concat_app. simpl.
  by rewrite app_nil_r.
Qed.

Lemma truthy_app_r (s t : str) : t <> [] -> truthy (s ++ t) = true.
Proof. destruct s, t; simpl; congruence. Qed.

(** X2.  A pause longer than [max_gap] after a word that has text ends the
    line: when [w] follows [p] and [w.start - p.end > max_gap], the groups
    split into those made of the words up to [p] and those made of the words
    from [w] on, so [p] and [w] are never in the same line. *)
Theorem gap_ends_the_line (pre post : list WordInfo) (p w : WordInfo)
    (max_chars : Z) (max_duration max_gap : float) :
  word p <> [] ->
  (max_gap <? word_start w - word_end p)%float = true ->
  exists gs1 gs2 dropped,
    _run_combine_words (pre ++ p :: w :: post) max_chars max_duration max_gap
    = Ok (map Group.line_of gs1 ++ map Group.line_of gs2)
    /\ concat gs1 = pre ++ [p]
    /\ w :: post = concat gs2 ++ dropped
    /\ Forall (fun x => word x = []) dropped.
Proof.
  intros Hp Hgap.
  destruct (split_through max_chars max_duration max_gap pre p None [])
    as (gs & g0 & Hcat & Hsplit).
  destruct (split_cover max_chars max_duration max_gap post (Some w) [w])
    as (dropped & Hcover & Hdropped).
  exists (gs ++ [g0 ++ [p]]),
    (Group.split max_chars max_duration max_gap (Some w) [w] post), dropped.
  split; [|split; [|split]].
  - rewrite run_combine_words_groups. unfold Group.groups.
    rewrite (Hsplit (w :: post)). simpl.
    assert (Hb : Segment.breaks max_chars max_duration max_gap (Some p)
                   (Group.raw_line (g0 ++ [p])) w = true).
    { unfold Segment.breaks, Segment.gap_hit, Segment.gap. simpl.
      rewrite text_snoc, (truthy_app_r _ _ Hp), Hgap.
      by rewrite !orb_true_r. }
    rewrite Hb, <- map_app, <- app_assoc. reflexivity.
  - rewrite concat_app. simpl. rewrite app_nil_r, <- Hcat. reflexivity.
  - exact Hcover.
  - exact Hdropped.
Qed.

Lemma gap_ends_the_line_witness :
  exists gs1 gs2,
    _run_combine_words Sample.hello_world_today 30 2.5 1.5
    = Ok (map Group.line_of gs1 ++ map Group.line_of gs2)
    /\ concat gs1 = [mkWord 0.0 0.4 (py "Hello "); mkWord 0.5 0.9 (py "world ")].
Proof.
  destruct (gap_ends_the_line [mkWord 0.0 0.4 (py "Hello ")] []
              (mkWord 0.5 0.9 (py "world ")) (mkWord 3.0 3.4 (py "today"))
              30 2.5 1.5 ltac:(vm_compute; discriminate)
              ltac:(vm_compute; reflexivity))
    as (gs1 & gs2 & dropped & Hrun & Hcat & _).
  exists gs1, gs2. split; [exact Hrun | exact Hcat].
Defined.

Lemma spoken_snoc (g : list WordInfo) (w : WordInfo) :
  Group.spoken (g ++ [w])
  = (Group.spoken g + (word_end w - word_start w))%float.
Proof. unfold Group.spoken. by rewrite fold_left_app. Qed.

Lemma split_soft_limits (max_chars : Z) (max_duration max_gap : float)
    (words : list WordInfo) :
  forall prev g,
    g = [] \/ within max_chars max_duration g \/ unchecked g ->
    Forall (fun g' => within max_chars max_duration g' \/ unchecked g')
      (Group.split max_chars max_duration max_gap prev g words).
Proof.
  induction words as [|w words IH]; intros prev g Hg; simpl.
  - destruct (truthy (Group.text g)) eqn:Ht; [|constructor].
    constructor; [|constructor].
    destruct Hg as [-> | Hg]; [discriminate | exact Hg].
  - destruct (Segment.breaks max_chars max_duration max_gap prev
                (Group.raw_line g) w) eqn:Hb.
    + constructor.
      * destruct Hg as [-> | Hg]; [|exact Hg].
        unfold Segment.breaks in Hb. simpl in Hb. discriminate.
      * apply IH. right. right. exists [], w. split; [reflexivity|constructor].
    + apply IH. right.
      unfold Segment.breaks in Hb. simpl in Hb.
      destruct (truthy (Group.text g)) eqn:Ht; simpl in Hb.
      * left. apply orb_false_iff in Hb as [Hb _].
        apply orb_false_iff in Hb as [Htime Hchars].
        unfold Segment.time_hit, Segment.chars_hit, Segment.word_duration in *.
        simpl in Htime, Hchars.
        split.
        -- rewrite text_snoc. unfold len in *. rewrite length_app.
           apply Z.leb_gt in Hchars. lia.
        -- rewrite spoken_snoc. exact Htime.
      * right. exists g, w. split; [reflexivity|].
        by apply text_empty_words.
Qed.

(** X3.  The limits are soft ceilings.  The returned lines are the lines of
    consecutive groups of the input words, which taken together are the
    input less the words dropped at its end; and every group either stays
    within both limits (its untrimmed text is shorter than [max_chars], and
    its duration does not exceed [max_duration]) or was formed without a
    check: one word, after words that have no text.  So no line joins two
    words that have text unless the two limits allow it, and a single word
    is taken however long it is. *)
Theorem limits_are_soft_ceilings (data : list WordInfo) (max_chars : Z)
    (max_duration max_gap : float) :
  exists gs dropped,
    _run_combine_words data max_chars max_duration max_gap
    = Ok (map Group.line_of gs)
    /\ data = concat gs ++ dropped
    /\ Forall (fun g =>
                 ((len (Group.text g) < max_chars)%Z
                  /\ (max_duration <? duration (Group.line_of g))%float = false)
                 \/ exists g0 w,
                      g = g0 ++ [w] /\ Forall (fun x => word x = []) g0) gs.
Proof.
  destruct (split_cover max_chars max_duration max_gap data None [])
    as (dropped & Hcover & _).
  exists (Group.groups data max_chars max_duration max_gap), dropped.
  split; [apply run_combine_words_groups|].
  split; [exact Hcover|].
  apply (split_soft_limits max_chars max_duration max_gap data None []).
  by left.
Qed.

(** X4.  Every returned line has its two times: its start is the start of a
    word of the input and its end the end of one; and there are no more
    lines than words. *)
Theorem lines_have_times (data : list WordInfo) (max_chars : Z)
    (max_duration max_gap : float) :
  exists lines,
    _run_combine_words data max_chars max_duration max_gap = Ok lines
    /\ Forall (fun l =>
                 exists a b,
                   In a data /\ In b data
                   /\ start l = Some (word_start a)
                   /\ end_ l = Some (word_end b)) lines
    /\ length lines <= length data.
Proof.
  exists (map Group.line_of (Group.groups data max_chars max_duration max_gap)).
  split; [apply run_combine_words_groups|].
  destruct (split_cover max_chars max_duration max_gap data None [])
    as (dropped & Hcover & _).
  simpl in Hcover. fold (Group.groups data max_chars max_duration max_gap) in Hcover.
  pose proof (split_texts max_chars max_duration max_gap data None []) as Htexts.
  fold (Group.groups data max_chars max_duration max_gap) in Htexts.
  assert (Hne : Forall (fun g => g <> [])
                  (Group.groups data max_chars max_duration max_gap)).
  { eapply Forall_impl; [exact Htexts|]. intros g Hg ->. discriminate. }
  clear Htexts.
  remember (Group.groups data max_chars max_duration max_gap) as gs eqn:Hgs.
  clear Hgs. subst data. split.
  - induction Hne as [|g gs Hg _ IH]; simpl; [constructor|].
    constructor.
    + destruct g as [|a g]; [contradiction|].
      destruct (@exists_last _ (a :: g) ltac:(discriminate)) as (g' & b & Hlast).
      exists a, b. repeat split.
      * simpl. left. reflexivity.
      * simpl concat. rewrite Hlast, <- !app_assoc.
        apply in_or_app. right. simpl. left. reflexivity.
      * unfold Group.line_of, Group.raw_line, Segment.emit. cbn [end_].
        rewrite Hlast, last_snoc. reflexivity.
    + eapply Forall_impl; [exact IH|].
      intros l (a & b & Ha & Hb & Hs & He). exists a, b.
      repeat split; try assumption;
        simpl concat; rewrite <- app_assoc; apply in_or_app; right; assumption.
  - rewrite length_map, length_app.
    induction Hne as [|g gs Hg _ IH]; simpl; [lia|].
    rewrite length_app. destruct g; [contradiction|]. simpl. lia.
Qed.

Lemma lstrip_head (s : str) (c : N) :
  head (lstrip s) = Some c -> isspace c = false.
Proof.
  induction s as [|x s IH]; simpl; [discriminate|].
  destruct (isspace x) eqn:Hx; [exact IH|].
  simpl. intros [= <-]. exact Hx.
Qed.

Lemma lstrip_suffix (s : str) : exists spaces, s = spaces ++ lstrip s.
Proof.
  induction s as [|x s (spaces & IH)]; simpl; [by exists []|].
  destruct (isspace x).
  - exists (x :: spaces). simpl. by rewrite <- IH.
  - by exists [].
Qed.

Lemma last_of_rev (s : str) : last (rev s) = head s.
Proof. destruct s; simpl; [reflexivity | apply last_snoc]. Qed.

Lemma rstrip_last (s : str) (c : N) :
  last (rstrip s) = Some c -> isspace c = false.
Proof.
  unfold rstrip. rewrite last_of_rev. apply lstrip_head.
Qed.

Lemma rstrip_prefix (s : str) : exists spaces, s = rstrip s ++ spaces.
Proof.
  unfold rstrip. destruct (lstrip_suffix (rev s)) as (spaces & Hs).
  exists (rev spaces). rewrite <- rev_app_distr, <- Hs. by rewrite rev_involutive.
Qed.

Lemma strip_ends (s : str) :
  (forall c, head (strip s) = Some c -> isspace c = false)
  /\ (forall c, last (strip s) = Some c -> isspace c = false).
Proof.
  unfold strip. split; [|apply rstrip_last].
  intros c Hc. apply (lstrip_head s).
  destruct (rstrip_prefix (lstrip s)) as (spaces & Hs).
  rewrite Hs. destruct (rstrip (lstrip s)); [discriminate|exact Hc].
Qed.

(** X5.  No returned line starts or ends with a white-space character, and
    trimming never makes a text longer. *)
Theorem lines_are_trimmed (data : list WordInfo) (max_chars : Z)
    (max_duration max_gap : float) :
  exists lines,
    _run_combine_words data max_chars max_duration max_gap = Ok lines
    /\ Forall (fun l =>
                 (forall c, head (line l) = Some c -> isspace c = false)
                 /\ (forall c, last (line l) = Some c -> isspace c = false))
         lines
    /\ Forall2 (fun l g => length (line l) <= length (Group.text g)) lines
         (Group.groups data max_chars max_duration max_gap).
Proof.
  exists (map Group.line_of (Group.groups data max_chars max_duration max_gap)).
  split; [apply run_combine_words_groups|]. split.
  - apply List.Forall_forall. intros l Hl.
    apply in_map_iff in Hl as (g & <- & _).
    apply strip_ends.
  - induction (Group.groups data max_chars max_duration max_gap) as [|g gs IH];
      simpl; constructor; [|exact IH].
    unfold Group.line_of, Segment.emit. cbn [line Group.raw_line].
    unfold strip.
    destruct (lstrip_suffix (Group.text g)) as (s1 & H1).
    destruct (rstrip_prefix (lstrip (Group.text g))) as (s2 & H2).
    apply (f_equal length) in H1, H2. rewrite length_app in H1, H2. lia.
Qed.

(** ** Captions *)

Lemma create_caption_clip_built (env : Env) (l : LineInfo) (size : Z * Z)
    (opts : SubtitleOptions) (position : string * float) :
  fst position = "center" ->
  (forall text, text_clip env text = None) ->
  is_Some (start l) -> is_Some (end_ l) ->
  _create_caption_clip env l size (font opts) (font_size opts)
    (font_color opts) (stroke_color opts) (stroke_width opts)
    (Some position) (shadow opts)
  = Ok (if shadow opts
        then [shadow_clip_of opts position l; caption_clip_of opts position l]
        else [caption_clip_of opts position l]).
Proof.
  intros Hcenter Hclip [s Hs] [e He].
  unfold _create_caption_clip, _add_shadow_caption, new_text_clip,
    caption_clip_of, shadow_clip_of, caption_clip_at, shadow_clip_at.
  rewrite Hs, He. cbn [rbind time_or_zero]. rewrite Hclip, Hcenter.
  destruct (shadow opts); cbn [rbind String.eqb Ascii.eqb Bool.eqb];
    rewrite ?Hclip; reflexivity.
Qed.

Lemma caption_layers_append (env : Env) (size : Z * Z) (opts : SubtitleOptions)
    (position : string * float) (lines : list LineInfo) :
  fst position = "center" ->
  (forall text, text_clip env text = None) ->
  Forall (fun l => is_Some (start l) /\ is_Some (end_ l)) lines ->
  (forall shadows captions,
     shadow opts = true ->
     caption_layers env size opts position lines [shadows; captions]
     = Ok [shadows ++ map (shadow_clip_of opts position) lines;
           captions ++ map (caption_clip_of opts position) lines])
  /\ (forall captions,
        shadow opts = false ->
        caption_layers env size opts position lines [captions]
        = Ok [captions ++ map (caption_clip_of opts position) lines]).
Proof.
  intros Hcenter Hclip Hlines.
  induction Hlines as [|l lines [Hs He] _ [IHs IHc]]; split.
  - intros shadows captions _. simpl. by rewrite !app_nil_r.
  - intros captions _. simpl. by rewrite app_nil_r.
  - intros shadows captions Hshadow. simpl.
    rewrite (create_caption_clip_built env l size opts position
               Hcenter Hclip Hs He), Hshadow.
    cbn [rbind add_to_layers]. rewrite IHs by exact Hshadow.
    by rewrite <- !app_assoc.
  - intros captions Hshadow. simpl.
    rewrite (create_caption_clip_built env l size opts position
               Hcenter Hclip Hs He), Hshadow.
    cbn [rbind add_to_layers]. rewrite IHc by exact Hshadow.
    by rewrite <- !app_assoc.
Qed.

(** X6.  With a valid position, text clips that can be built and lines that
    have their times, [_create_caption] returns no layer for no line, and
    otherwise one layer of caption clips, one per line in the order of the
    lines, preceded by a layer of their shadows when shadows are on.  A clip
    starts at its line's start and lasts [end - start], whatever the line's
    [duration] field holds. *)
Theorem create_caption_layers (env : Env) (lines : list LineInfo)
    (size : Z * Z) (opts : SubtitleOptions) (p : Position) :
  Position_of_value (position_id opts) = Ok p ->
  (forall text, text_clip env text = None) ->
  Forall (fun l => is_Some (start l) /\ is_Some (end_ l)) lines ->
  let position := _get_position (snd size) p in
  _create_caption env lines size opts
  = Ok (match lines with
        | [] => []
        | _ :: _ =>
            if shadow opts
            then [map (shadow_clip_of opts position) lines;
                  map (caption_clip_of opts position) lines]
            else [map (caption_clip_of opts position) lines]
        end)
  /\ Forall2 (fun l c =>
                Some (clip_start c) = start l
                /\ (exists s e, start l = Some s /\ end_ l = Some e
                                /\ clip_duration c = (e - s)%float)
                /\ clip_text c = line l)
       lines (map (caption_clip_of opts position) lines).
Proof.
  intros Hpos Hclip Hlines. cbv zeta.
  assert (Hcenter : fst (_get_position (snd size) p) = "center")
    by (destruct p; reflexivity).
  split.
  - unfold _create_caption. rewrite Hpos. cbn [rbind].
    destruct Hlines as [|l lines [Hs He] Hlines]; [reflexivity|].
    simpl caption_layers.
    rewrite (create_caption_clip_built env l size opts _ Hcenter Hclip Hs He).
    destruct (caption_layers_append env size opts _ lines Hcenter Hclip Hlines)
      as [Hshadows Hcaptions].
    destruct (shadow opts) eqn:Hshadow; cbn [rbind add_to_layers].
    + rewrite Hshadows by reflexivity. reflexivity.
    + rewrite Hcaptions by reflexivity. reflexivity.
  - induction Hlines as [|l lines [[s Hs] [e He]] _ IH]; simpl; constructor;
      [|exact IH].
    unfold caption_clip_of, caption_clip_at. rewrite Hs, He. simpl.
    split; [reflexivity|]. split; [|reflexivity]. by exists s, e.
Qed.

Lemma create_caption_layers_witness :
  exists shadows captions,
    _create_caption Sample.env_ok Demo.two_lines (640, 480)%Z
      Demo.shadowed_options
    = Ok [shadows; captions]
    /\ map clip_text shadows = [py "Hello world"; py "today"]
    /\ map clip_duration captions = [0.9%float; (3.4 - 3.0)%float].
Proof.
  eexists _, _.
  rewrite (proj1 (create_caption_layers Sample.env_ok Demo.two_lines
                    (640, 480)%Z Demo.shadowed_options top
                    eq_refl (fun _ => eq_refl)
                    ltac:(repeat constructor; eexists; reflexivity))).
  split; [reflexivity|]. vm_compute. split; reflexivity.
Defined.

(** ** The store *)



Lemma db_execute_update (env : Env) (job_id : string) (c : DbCall) (w : World) :
  updates_job job_id c ->
  options (snd (db_execute env c w)) = options w
  /\ dom (jobs (snd (db_execute env c w))) = dom (jobs w)
  /\ (forall id', id' <> job_id ->
        jobs (snd (db_execute env c w)) !! id' = jobs w !! id')
  /\ (db_available env = false -> jobs (snd (db_execute env c w)) = jobs w).
Proof.
  intros Hc. unfold db_execute.
  destruct c as [j r o|j s p|j m|j t u]; simpl in Hc; [contradiction|..];
    subst j; cbn [accepted].
  all: destruct (db_available env);
    cbn [andb snd commit log_call jobs options].
  all: repeat apply conj; try reflexivity; try discriminate.
  all: try apply dom_alter_L.
  all: intros id' Hid'; apply lookup_alter_ne; congruence.
Qed.

Lemma issue_updates (env : Env) (job_id : string) (calls : list DbCall) :
  Forall (updates_job job_id) calls ->
  forall w,
    options (issue env calls w) = options w
    /\ dom (jobs (issue env calls w)) = dom (jobs w)
    /\ (forall id', id' <> job_id ->
          jobs (issue env calls w) !! id' = jobs w !! id')
    /\ (db_available env = false -> jobs (issue env calls w) = jobs w).
Proof.
  induction 1 as [|c calls Hc _ IH]; intros w; [done|].
  rewrite issue_cons.
  destruct (IH (snd (db_execute env c w))) as (Ho & Hd & Hj & Hdown).
  destruct (db_execute_update env job_id c w Hc) as (Ho1 & Hd1 & Hj1 & Hdown1).
  repeat apply conj.
  - congruence.
  - congruence.
  - intros id' Hid'. rewrite Hj, Hj1 by exact Hid'. reflexivity.
  - intros Hdb. rewrite Hdown, Hdown1 by exact Hdb. reflexivity.
Qed.

Lemma run_calls_update_job (env : Env) (job_id : string) (k : nat)
    (r : result bool) :
  Forall (updates_job job_id)
    (UpdateStatus job_id (Status_value NotStarted) 10
     :: take k (checkpoints job_id) ++ [terminal_call env job_id r]).
Proof.
  constructor; [reflexivity|]. apply Forall_app. split.
  - apply Forall_take. repeat constructor.
  - constructor; [|constructor]. destruct r; reflexivity.
Qed.

(** The tables after a run are what its calls make of them. *)
Lemma run_tables (env : Env) (job_id input_path output_path : string)
    (opts : SubtitleOptions) (w : World) :
  exists calls,
    Forall (updates_job job_id) calls
    /\ jobs (snd (background_video_processing env job_id input_path
                    output_path opts w)) = jobs (issue env calls w)
    /\ options (snd (background_video_processing env job_id input_path
                       output_path opts w)) = options (issue env calls w).
Proof.
  destruct (background_video_processing_outcome env job_id input_path
              output_path opts w) as (k & fs & _ & _ & _ & Hrun).
  cbv zeta in Hrun. rewrite <- issue_app in Hrun. simpl app in Hrun.
  eexists. split; [apply (run_calls_update_job env job_id k)|].
  destruct (background_video_processing _ _ _ _ _ w) as [[u|e] w'];
    destruct Hrun as [Hw' _]; cbn [snd]; rewrite Hw' at 1 2;
    cbn [with_files jobs options]; split; reflexivity.
Qed.

(** X8.  A run of the background task changes nothing but the row of its
    own job: the options table is as before, every other job's row is as
    before, and no row appears or disappears, so a job that is not stored
    stays absent. *)
Theorem run_touches_only_its_job (env : Env)
    (job_id input_path output_path : string) (opts : SubtitleOptions)
    (w : World) :
  let w' := snd (background_video_processing env job_id input_path
                   output_path opts w) in
  options w' = options w
  /\ dom (jobs w') = dom (jobs w)
  /\ forall id', id' <> job_id -> jobs w' !! id' = jobs w !! id'.
Proof.
  cbv zeta.
  destruct (run_tables env job_id input_path output_path opts w)
    as (calls & Hcalls & -> & ->).
  destruct (issue_updates env job_id calls Hcalls w) as (Ho & Hd & Hj & _).
  auto.
Qed.

(** X9.  With the database down a run makes the same calls, starting with
    the start write and ending with a terminal one, but no row changes: the
    outcome of the run is lost without any error. *)
Theorem store_outage_is_silent (env : Env)
    (job_id input_path output_path : string) (opts : SubtitleOptions)
    (w : World) :
  db_available env = false ->
  let run := background_video_processing env job_id input_path
               output_path opts w in
  jobs (snd run) = jobs w
  /\ options (snd run) = options w
  /\ (exists calls c,
        calls_since w (snd run)
        = UpdateStatus job_id (Status_value NotStarted) 10 :: calls ++ [c]
        /\ (call_status c = Status_value Completed
            \/ call_status c = Status_value Failed))
  /\ (remove_error env input_path = None -> fst run = Ok tt).
Proof.
  intros Hdb. cbv zeta.
  destruct (background_video_processing_summary env job_id input_path
              output_path opts w)
    as (k & fs & _ & _ & _ & Hcalls & _ & _ & Hraise).
  destruct (run_tables env job_id input_path output_path opts w)
    as (calls & Hupd & Hjobs & Hopts).
  destruct (issue_updates env job_id calls Hupd w) as (Ho & _ & _ & Hdown).
  cbv zeta in *.
  split; [rewrite Hjobs; by apply Hdown|].
  split; [congruence|].
  split.
  - eexists _, _. split; [exact Hcalls|].
    destruct (fst (process_video_with_subtitles _ _ _ _ _ _)); simpl; auto.
  - intros Hrm.
    destruct (background_video_processing _ _ _ _ _ w) as [[[]|e] w'];
      [reflexivity|].
    specialize (Hraise e eq_refl). congruence.
Qed.

Lemma store_outage_is_silent_witness :
  let w := Sample.created Sample.env_ok Sample.default_options in
  let run := background_video_processing Demo.env_store_down "j1"
               Sample.input_path Sample.output_path Sample.default_options w in
  jobs (snd run) = jobs w /\ fst run = Ok tt.
Proof.
  cbv zeta.
  destruct (store_outage_is_silent Demo.env_store_down
              "j1" Sample.input_path Sample.output_path
              Sample.default_options
              (Sample.created Sample.env_ok Sample.default_options) eq_refl)
    as (Hjobs & _ & _ & Hok).
  split; [exact Hjobs | exact (Hok eq_refl)].
Defined.

Lemma task_returns_when_deletion_works (env : Env)
    (job_id input_path output_path : string) (opts : SubtitleOptions)
    (w : World) :
  remove_error env input_path = None ->
  fst (background_video_processing env job_id input_path output_path opts w)
  = Ok tt.
Proof.
  intros Hrm.
  destruct (background_video_processing_summary env job_id input_path
              output_path opts w)
    as (k & fs & _ & _ & _ & _ & _ & _ & Hraise).
  cbv zeta in Hraise.
  destruct (background_video_processing _ _ _ _ _ w) as [[[]|e] w'];
    [reflexivity|].
  specialize (Hraise e eq_refl). cbn [fst] in Hraise. congruence.
Qed.

(** X10.  Whatever the stages do, the background task raises only what
    deleting the input file raises: when that deletion cannot fail the task
    returns normally. *)
Theorem task_raises_only_from_input_deletion (env : Env)
    (job_id input_path output_path : string) (opts : SubtitleOptions)
    (w : World) :
  let run := background_video_processing env job_id input_path
               output_path opts w in
  (forall e, fst run = Raise e -> remove_error env input_path = Some e)
  /\ (remove_error env input_path = None -> fst run = Ok tt).
Proof.
  cbv zeta.
  destruct (background_video_processing_summary env job_id input_path
              output_path opts w)
    as (k & fs & _ & _ & _ & _ & _ & _ & Hraise).
  cbv zeta in Hraise. split; [exact Hraise|].
  intros Hrm.
  destruct (background_video_processing _ _ _ _ _ w) as [[[]|e] w'];
    [reflexivity|].
  specialize (Hraise e eq_refl). cbn [fst] in Hraise. congruence.
Qed.

(** A run that finds no input file. *)
Lemma run_without_input (env : Env) (job_id input_path output_path : string)
    (opts : SubtitleOptions) (w : World) :
  input_path ∉ files w ->
  let message := "Error: Failed to convert video to audio: " +:+ input_path in
  let run := background_video_processing env job_id input_path
               output_path opts w in
  calls_since w (snd run)
  = [UpdateStatus job_id (Status_value NotStarted) 10;
     UpdateFailed job_id message]
  /\ jobs (snd run)
     = jobs (issue env [UpdateStatus job_id (Status_value NotStarted) 10;
                        UpdateFailed job_id message] w).
Proof.
  intros Hin. cbv zeta.
  destruct (background_video_processing_summary env job_id input_path
              output_path opts w)
    as (k & fs & Hk & Hw1 & _ & Hcalls & Hjobs & _).
  cbv zeta in *.
  rewrite process_video_with_subtitles_outcome in *.
  rewrite (generate_subtitles_no_audio env
             (mkVideoCaption job_id input_path output_path opts)
             (issue env [UpdateStatus job_id (Status_value NotStarted) 10] w))
    in * by (left; cbn [input_file_path]; by rewrite files_issue).
  cbn [fst snd terminal_call exn_str input_file_path] in *.
  apply (f_equal db_calls) in Hw1. cbn [with_files db_calls] in Hw1.
  rewrite (db_calls_issue env (take k _)) in Hw1.
  rewrite <- (app_nil_r (db_calls (issue env [_] w))) in Hw1 at 1.
  apply app_inv_head in Hw1. rewrite <- Hw1 in *.
  split; [exact Hcalls | exact Hjobs].
Qed.

(** X11.  A run whose input file is missing writes the start, then marks
    the job Failed with the message "Error: Failed to convert video to
    audio: <path>": no checkpoint is written, and with the database up the
    job's row ends Failed at progress 0 with that message. *)
Theorem missing_input_fails_at_once (env : Env)
    (job_id input_path output_path : string) (opts : SubtitleOptions)
    (w : World) :
  input_path ∉ files w ->
  let message := "Error: Failed to convert video to audio: " +:+ input_path in
  let w' := snd (background_video_processing env job_id input_path
                   output_path opts w) in
  calls_since w w'
  = [UpdateStatus job_id (Status_value NotStarted) 10;
     UpdateFailed job_id message]
  /\ (db_available env = true ->
      forall row, jobs w !! job_id = Some row ->
        jobs w' !! job_id
        = Some {| Progress := 0;
                  Input_Path := Input_Path row;
                  Output_Path := Output_Path row;
                  Original_Filename := Original_Filename row;
                  Created_At := Created_At row;
                  Completed_At := Completed_At row;
                  Status_ID := Status_value Failed;
                  Download_URL := Download_URL row;
                  Failed_Message := message |}).
Proof.
  intros Hin. cbv zeta.
  destruct (run_without_input env job_id input_path output_path opts w Hin)
    as [Hcalls Hjobs].
  split; [exact Hcalls|].
  intros Hdb row Hrow. rewrite Hjobs.
  exact (row_after_run env job_id 0 _ w row Hdb Hrow ltac:(lia)
           ltac:(right; eauto)).
Qed.

Lemma missing_input_fails_at_once_witness :
  calls_since
    (with_files ∅ (Sample.created Sample.env_ok Sample.default_options))
    (snd (background_video_processing Sample.env_ok "j1" Sample.input_path
            Sample.output_path Sample.default_options
            (with_files ∅ (Sample.created Sample.env_ok Sample.default_options))))
  = [UpdateStatus "j1" 1 10;
     UpdateFailed "j1"
       "Error: Failed to convert video to audio: /temp/j1_input.mp4"].
Proof.
  exact (proj1 (missing_input_fails_at_once Sample.env_ok "j1"
                  Sample.input_path Sample.output_path Sample.default_options
                  (with_files ∅ (Sample.created Sample.env_ok
                                   Sample.default_options))
                  ltac:(apply not_elem_of_empty))).
Defined.

(** X12.  The store does not protect a finished job.  After a run that
    completed the job and deleted its input, a second run for the same job
    marks it Failed at progress 0, while the row keeps the completion time
    and the download URL of the first run. *)
Theorem rerun_fails_a_completed_job (env env2 : Env)
    (job_id input_path output_path : string) (opts : SubtitleOptions)
    (w : World) (success : bool) (w1 : World) (row : JobRow) :
  process_video_with_subtitles env job_id input_path output_path opts
    (snd (update_job_status_db env job_id (Status_value NotStarted) 10 w))
  = (Ok success, w1) ->
  remove_error env input_path = None ->
  db_available env = true -> db_available env2 = true ->
  jobs w !! job_id = Some row ->
  let w' := snd (background_video_processing env job_id input_path
                   output_path opts w) in
  let w'' := snd (background_video_processing env2 job_id input_path
                    output_path opts w') in
  (Status_ID <$> jobs w' !! job_id) = Some (Status_value Completed)
  /\ jobs w'' !! job_id
     = Some {| Progress := 0;
               Input_Path := Input_Path row;
               Output_Path := Output_Path row;
               Original_Filename := Original_Filename row;
               Created_At := Created_At row;
               Completed_At := now env;
               Status_ID := Status_value Failed;
               Download_URL := "/jobs/" +:+ job_id +:+ "/download";
               Failed_Message :=
                 "Error: Failed to convert video to audio: " +:+ input_path |}.
Proof.
  intros Hp Hrm Hdb Hdb2 Hrow. cbv zeta.
  destruct (background_video_processing_summary env job_id input_path
              output_path opts w)
    as (k & fs & Hk & _ & Hb & _ & Hjobs & Hin & _).
  cbv zeta in *. rewrite update_job_status_db_issue in Hp.
  rewrite Hp in *. cbn [fst terminal_call] in *.
  destruct (Hb success eq_refl) as [_ ->].
  pose proof (row_after_run env job_id 3
                (UpdateCompleted job_id (now env)
                   ("/jobs/" +:+ job_id +:+ "/download"))
                w row Hdb Hrow ltac:(lia)
                ltac:(left; eauto)) as Hrow'.
  rewrite <- Hjobs in Hrow'.
  split; [rewrite Hrow'; reflexivity|].
  destruct (run_without_input env2 job_id input_path output_path opts _
              (Hin Hrm)) as [_ Hjobs2].
  rewrite Hjobs2.
  pose proof (row_after_run env2 job_id 0
                (UpdateFailed job_id
                   ("Error: Failed to convert video to audio: " +:+ input_path))
                _ _ Hdb2 Hrow' ltac:(lia) ltac:(right; eauto)) as Hrow''.
  exact Hrow''.
Qed.

Lemma rerun_fails_a_completed_job_witness :
  let w := Sample.created Sample.env_ok Sample.default_options in
  let w' := snd (background_video_processing Sample.env_ok "j1"
                   Sample.input_path Sample.output_path
                   Sample.default_options w) in
  let w'' := snd (background_video_processing Sample.env_ok "j1"
                    Sample.input_path Sample.output_path
                    Sample.default_options w') in
  (Status_ID <$> jobs w' !! "j1") = Some 3%Z
  /\ (Status_ID <$> jobs w'' !! "j1") = Some 4%Z
  /\ (Download_URL <$> jobs w'' !! "j1") = Some "/jobs/j1/download".
Proof.
  cbv zeta.
  destruct (rerun_fails_a_completed_job Sample.env_ok Sample.env_ok "j1"
              Sample.input_path Sample.output_path Sample.default_options
              (Sample.created Sample.env_ok Sample.default_options) true
              (snd (process_video_with_subtitles Sample.env_ok "j1"
                      Sample.input_path Sample.output_path
                      Sample.default_options
                      (snd (update_job_status_db Sample.env_ok "j1"
                              (Status_value NotStarted) 10
                              (Sample.created Sample.env_ok
                                 Sample.default_options)))))
              (new_job_row Sample.env_ok "talk.mp4")
              ltac:(vm_compute; reflexivity) eq_refl eq_refl eq_refl
              ltac:(vm_compute; reflexivity))
    as [Hfirst Hsecond].
  split; [exact Hfirst|]. rewrite Hsecond. split; reflexivity.
Defined.

(** ** Files *)

(** Every stage works: the world the pipeline returns in. *)
Lemma generate_subtitles_success (env : Env) (self : VideoCaption) (w : World)
    (words : list WordInfo) (size : Z * Z) :
  let audio := temp_path env (path_stem env (input_file_path self) +:+ ".mp3") in
  input_file_path self ∈ files w ->
  ffmpeg_run env (input_file_path self) audio = None ->
  whisper env audio = Ok words ->
  video_file_clip env (input_file_path self) = Ok size ->
  (exists p, Position_of_value (position_id (subtitle_options self)) = Ok p) ->
  (forall text, text_clip env text = None) ->
  write_videofile env (output_file_path self) = None ->
  remove_error env audio = None ->
  generate_subtitles env self w
  = (Ok tt,
     with_files (({[output_file_path self]} ∪ ({[audio]} ∪ files w)) ∖ {[audio]})
       (issue env (checkpoints (job_id self)) w)).
Proof.
  cbv zeta. intros Hin Hff Hwh Hsize (p & Hpos) Hclip Hrender Hrm.
  unfold generate_subtitles, _convert_video_to_mp3, _set_raw_output,
    _combine_words, _run_ffmpeg_conversion, _render_output_video,
    update_job_status_db, try_except, bind, lift, ret, raise,
    os_path_exists, os_remove, create_file.
  rewrite (bool_decide_eq_true_2 _ Hin). cbn [negb]. rewrite Hff.
  cbn beta iota. rewrite db_execute_issue. cbn beta iota.
  rewrite Hwh, db_execute_issue. cbn beta iota.
  rewrite run_combine_words_groups, db_execute_issue. cbn beta iota.
  rewrite Hsize. cbn beta iota.
  unfold _create_caption. rewrite Hpos. cbn [rbind].
  assert (Htimes :
    Forall (fun l => exists s e, start l = Some s /\ end_ l = Some e)
      (map Group.line_of
         (Group.groups words (max_chars (subtitle_options self))
            (max_duration (subtitle_options self))
            (max_gap (subtitle_options self))))).
  { apply List.Forall_forall. intros l Hl.
    apply in_map_iff in Hl as (g & <- & Hg).
    apply line_of_times.
    pose proof (split_texts (max_chars (subtitle_options self))
                  (max_duration (subtitle_options self))
                  (max_gap (subtitle_options self)) words None []) as Ht.
    rewrite List.Forall_forall in Ht. specialize (Ht g Hg).
    intros ->. discriminate. }
  destruct (caption_layers_built env size (subtitle_options self)
              (_get_position (snd size) p) _
              ltac:(destruct p; reflexivity) Hclip Htimes [])
    as [layers ->].
  rewrite Hrender. cbn [files fst].
  rewrite !files_issue. cbn [files].
  rewrite bool_decide_eq_true_2 by set_solver.
  cbn [files]. rewrite ?files_issue. cbn [files].
  rewrite bool_decide_eq_true_2 by set_solver.
  rewrite Hrm. f_equal.
  change {| jobs := jobs w; options := options w;
            files := {[temp_path env (path_stem env (input_file_path self) +:+ ".mp3")]}
                     ∪ files w;
            db_calls := db_calls w |}
    with (with_files
            ({[temp_path env (path_stem env (input_file_path self) +:+ ".mp3")]}
             ∪ files w) w).
  rewrite !issue_with_files, <- !issue_app. reflexivity.
Qed.

(** A run in which every stage works: the files and the job's row. *)
Lemma successful_run_world (env : Env)
    (job_id input_path output_path : string) (opts : SubtitleOptions)
    (w : World) (words : list WordInfo) (size : Z * Z) (p : Position) :
  let audio := temp_path env (path_stem env input_path +:+ ".mp3") in
  input_path ∈ files w ->
  ffmpeg_run env input_path audio = None ->
  whisper env audio = Ok words ->
  video_file_clip env input_path = Ok size ->
  Position_of_value (position_id opts) = Ok p ->
  (forall text, text_clip env text = None) ->
  write_videofile env output_path = None ->
  remove_error env audio = None ->
  remove_error env input_path = None ->
  let w' := snd (background_video_processing env job_id input_path
                   output_path opts w) in
  (forall path,
     path ∈ files w'
     <-> (path = output_path \/ path ∈ files w)
         /\ path <> audio /\ path <> input_path)
  /\ jobs w'
     = jobs (issue env
               (UpdateStatus job_id (Status_value NotStarted) 10
                :: checkpoints job_id
                ++ [UpdateCompleted job_id (now env)
                      ("/jobs/" +:+ job_id +:+ "/download")]) w).
Proof.
  cbv zeta. intros Hin Hff Hwh Hsize Hpos Hclip Hrender Hrma Hrmi.
  pose proof (background_video_processing_files env job_id input_path
                output_path opts w) as Hfiles.
  destruct (background_video_processing_summary env job_id input_path
              output_path opts w)
    as (k & fs & _ & _ & Hb & _ & Hjobs & _).
  cbv zeta in Hfiles, Hb, Hjobs.
  rewrite process_video_with_subtitles_outcome in Hfiles, Hb, Hjobs.
  pose proof (generate_subtitles_success env
                (mkVideoCaption job_id input_path output_path opts)
                (issue env [UpdateStatus job_id (Status_value NotStarted) 10] w)
                words size) as Hg.
  cbn [input_file_path output_file_path subtitle_options] in Hg.
  rewrite files_issue in Hg.
  specialize (Hg Hin Hff Hwh Hsize (ex_intro _ p Hpos) Hclip Hrender Hrma).
  rewrite Hg in Hfiles, Hb, Hjobs. cbn [fst snd with_files files] in *.
  rewrite Hrmi in Hfiles.
  destruct (Hb true eq_refl) as [_ ->].
  split; [|exact Hjobs].
  intros path. rewrite Hfiles.
  destruct (bool_decide _) eqn:Hd.
  - rewrite !elem_of_difference, !elem_of_union, !elem_of_singleton.
    tauto.
  - apply bool_decide_eq_false in Hd. revert Hd.
    rewrite !elem_of_difference, !elem_of_union, !elem_of_singleton.
    intros Hd. split; [|tauto].
    intros Hx. split; [tauto|]. split; [tauto|].
    intros ->. apply Hd. exact Hx.
Qed.

(** X13.  After a run in which every stage works, the rendered file is on
    disk, the extracted audio and the input file are gone, and no other file
    has appeared or disappeared. *)
Theorem successful_run_files (env : Env)
    (job_id input_path output_path : string) (opts : SubtitleOptions)
    (w : World) (words : list WordInfo) (size : Z * Z) (p : Position) :
  let audio := temp_path env (path_stem env input_path +:+ ".mp3") in
  input_path ∈ files w ->
  ffmpeg_run env input_path audio = None ->
  whisper env audio = Ok words ->
  video_file_clip env input_path = Ok size ->
  Position_of_value (position_id opts) = Ok p ->
  (forall text, text_clip env text = None) ->
  write_videofile env output_path = None ->
  remove_error env audio = None ->
  remove_error env input_path = None ->
  output_path <> audio -> output_path <> input_path ->
  let run := background_video_processing env job_id input_path output_path
               opts w in
  fst run = Ok tt
  /\ (output_path ∈ files (snd run))
  /\ (audio ∉ files (snd run))
  /\ (input_path ∉ files (snd run))
  /\ forall path,
       path <> output_path -> path <> audio -> path <> input_path ->
       (path ∈ files (snd run) <-> path ∈ files w).
Proof.
  cbv zeta. intros Hin Hff Hwh Hsize Hpos Hclip Hrender Hrma Hrmi Hoa Hoi.
  destruct (successful_run_world env job_id input_path output_path opts w
              words size p Hin Hff Hwh Hsize Hpos Hclip Hrender Hrma Hrmi)
    as [Hmem _].
  split; [by apply task_returns_when_deletion_works|].
  split; [apply Hmem; auto|].
  split; [intros Hx; apply Hmem in Hx; tauto|].
  split; [intros Hx; apply Hmem in Hx; tauto|].
  intros path Hpo Hpa Hpi. rewrite Hmem. tauto.
Qed.

Lemma successful_run_files_witness :
  (Sample.output_path ∈ files Demo.completed_world)
  /\ (Sample.audio_path ∉ files Demo.completed_world)
  /\ (Sample.input_path ∉ files Demo.completed_world).
Proof.
  destruct (successful_run_files Sample.env_ok "j1" Sample.input_path
              Sample.output_path Sample.default_options
              (Sample.created Sample.env_ok Sample.default_options)
              Sample.hello_world_today (640, 480)%Z bottom
              ltac:(vm_compute; reflexivity) eq_refl eq_refl eq_refl eq_refl
              (fun _ => eq_refl) eq_refl eq_refl eq_refl
              ltac:(vm_compute; discriminate) ltac:(vm_compute; discriminate))
    as (_ & Hout & Haudio & Hinput & _).
  repeat split; assumption.
Defined.

Lemma remove_quietly_files (env : Env) (file_path : string) (w : World) :
  forall path,
    path ∈ files (snd (remove_quietly env file_path w))
    <-> path ∈ files w
        /\ (path = file_path -> remove_error env file_path <> None).
Proof.
  intros path. unfold remove_quietly, try_except, os_remove, ret.
  destruct (bool_decide (file_path ∈ files w)) eqn:Hin;
    [destruct (remove_error env file_path) eqn:Hrm|]; cbn [snd files].
  - split; [intros H; split; [exact H | discriminate] | tauto].
  - rewrite elem_of_difference, elem_of_singleton. split.
    + intros [H Hne]. split; [exact H | contradiction].
    + intros [H Hrm']. split; [exact H|]. intros ->. by apply Hrm'.
  - apply bool_decide_eq_false in Hin. split.
    + intros H. split; [exact H|]. intros ->. contradiction.
    + tauto.
Qed.

Lemma for_each_remove_quietly_files (env : Env) (paths : list string) :
  forall w path,
    path ∈ files (snd (for_each_path (remove_quietly env) paths w))
    <-> path ∈ files w
        /\ (In path paths -> remove_error env path <> None).
Proof.
  induction paths as [|p paths IH]; intros w path; simpl.
  - unfold ret. simpl. tauto.
  - unfold bind.
    destruct (remove_quietly_swallows env p w) as (w1 & Hq & _).
    pose proof (remove_quietly_files env p w path) as Hstep.
    rewrite Hq in *. cbn [snd] in Hstep.
    rewrite IH, Hstep. split.
    + intros [[Hin Hp] Hrest]. split; [exact Hin|].
      intros [<-|Hin']; auto.
    + intros [Hin Hall]. repeat split; auto.
      intros ->. apply Hall. by left.
Qed.

(** X14.  [cleanup_temp_files] deletes exactly the files of [TEMP_DIR]
    whose deletion works: a file is there afterwards if and only if it was
    there before and either lies outside [TEMP_DIR] or could not be
    deleted. *)
Theorem cleanup_temp_files_effect (env : Env) (w : World) (path : string) :
  path ∈ files (snd (cleanup_temp_files env w))
  <-> path ∈ files w
      /\ (in_temp_dir env path = false \/ remove_error env path <> None).
Proof.
  unfold cleanup_temp_files. rewrite for_each_remove_quietly_files.
  split; intros [Hin Hkeep]; (split; [exact Hin|]).
  - destruct (in_temp_dir env path) eqn:Htemp; [|by left].
    right. apply Hkeep. apply list_elem_of_In.
    apply list_elem_of_filter. split; [exact Htemp|].
    by apply elem_of_elements.
  - intros Hl. apply list_elem_of_In, list_elem_of_filter in Hl as [Htemp _].
    destruct Hkeep as [Hout|Hrm]; [congruence | exact Hrm].
Qed.

(** ** Reads and routes *)




(** X16.  A job that is not stored and a database that is down look the
    same to a client: both routes answer 404 "Job not found" and change
    nothing. *)
Theorem unknown_job_is_not_found (env : Env) (site : Site) (job_id : string)
    (w : World) :
  db_available env = false \/ jobs w !! job_id = None ->
  get_job_status env site job_id w
  = (Ok (HTTPException 404 "Job not found"), w)
  /\ download_job env site job_id w
     = (Ok (HTTPException 404 "Job not found"), w).
Proof.
  intros Hcause.
  unfold get_job_status, download_job, pull_job_status, pull_job_download_url,
    get_job_status_db, get_job_download_URL_db, bind, ret.
  destruct (db_available env); [|split; reflexivity].
  destruct Hcause as [Hdown | ->]; [discriminate|]. split; reflexivity.
Qed.

Lemma unknown_job_is_not_found_witness :
  get_job_status Sample.env_ok Demo.site "j2"
    (Sample.created Sample.env_ok Sample.default_options)
  = (Ok (HTTPException 404 "Job not found"),
     Sample.created Sample.env_ok Sample.default_options).
Proof.
  exact (proj1 (unknown_job_is_not_found Sample.env_ok Demo.site "j2"
                  (Sample.created Sample.env_ok Sample.default_options)
                  (or_intror eq_refl))).
Defined.

(** X17.  The failure message is written but never read: neither read of
    the store depends on it, so the status route answers the same whatever
    message the job's row holds. *)
Theorem failure_message_is_never_read (env : Env) (site : Site)
    (job_id : string) (w : World) (row : JobRow) (message : string) :
  jobs w !! job_id = Some row ->
  let w2 :=
    with_jobs (<[job_id := with_failed_message message row]> (jobs w)) w in
  fst (get_job_status_db env site job_id w2)
  = fst (get_job_status_db env site job_id w)
  /\ fst (get_job_download_URL_db env site job_id w2)
     = fst (get_job_download_URL_db env site job_id w)
  /\ fst (get_job_status env site job_id w2)
     = fst (get_job_status env site job_id w).
Proof.
  intros Hrow. cbv zeta.
  unfold get_job_status, pull_job_status, get_job_status_db,
    get_job_download_URL_db, bind, ret, with_jobs.
  cbn [jobs]. rewrite lookup_insert_eq, Hrow.
  unfold joined_status, with_failed_message.
  cbn [Created_At Completed_At Status_ID Progress Download_URL Input_Path
       Output_Path Original_Filename].
  destruct (db_available env); [|repeat split].
  destruct (strptime site (Created_At row)); cbn [rbind fst]; [|repeat split].
  destruct (strptime site (Completed_At row)); cbn [rbind fst]; [|repeat split].
  destruct (Status_table (catalog site) !! Status_ID row); repeat split.
Qed.

Lemma failure_message_is_never_read_witness :
  fst (get_job_status Sample.env_ok Demo.site "j1"
         (with_jobs (<["j1" := with_failed_message "something else"
                                 Demo.failed_row]>
                       (jobs Demo.failed_world)) Demo.failed_world))
  = fst (get_job_status Sample.env_ok Demo.site "j1" Demo.failed_world).
Proof.
  exact (proj2 (proj2
           (failure_message_is_never_read Sample.env_ok Demo.site "j1"
              Demo.failed_world Demo.failed_row "something else"
              ltac:(vm_compute; reflexivity)))).
Defined.

(** X18.  The download route serves a file only for a stored job whose row
    says Completed at progress 100 and whose output file is on disk; the
    file served is that output file, under the name
    [captioned_<stem of the original name>.mp4], and the route changes
    nothing. *)
Theorem download_only_when_completed (env : Env) (site : Site)
    (job_id : string) (w w' : World) (f : FileResponse) :
  download_job env site job_id w = (Ok (Respond f), w') ->
  w' = w
  /\ db_available env = true
  /\ exists row,
       jobs w !! job_id = Some row
       /\ Status_ID row = Status_value Completed
       /\ Progress row = 100%Z
       /\ Output_Path row ∈ files w
       /\ f = {| file_path := Output_Path row;
                 file_filename :=
                   "captioned_" +:+ path_stem env (Original_Filename row)
                   +:+ ".mp4";
                 file_media_type := "video/mp4" |}.
Proof.
  unfold download_job, pull_job_download_url, get_job_download_URL_db, bind,
    ret, os_path_exists.
  destruct (db_available env); [|discriminate].
  destruct (jobs w !! job_id) as [row|] eqn:Hrow; [|discriminate].
  unfold joined_status.
  destruct (strptime site (Created_At row)); cbn [rbind]; [|discriminate].
  destruct (strptime site (Completed_At row)); cbn [rbind]; [|discriminate].
  destruct (Status_table (catalog site) !! Status_ID row); [|discriminate].
  cbn [info_progress info_status_id info_output_path info_status_name
       info_original_filename].
  destruct (Z.eqb_spec (Progress row) 100); cbn [negb orb]; [|discriminate].
  destruct (Z.eqb_spec (Status_ID row) 3); cbn [negb]; [|discriminate].
  destruct (bool_decide (Output_Path row ∈ files w)) eqn:Hout;
    cbn [negb]; [|discriminate].
  intros [= <- <-]. apply bool_decide_eq_true in Hout.
  split; [reflexivity|]. split; [reflexivity|].
  exists row. repeat split; assumption.
Qed.

Lemma download_only_when_completed_witness :
  exists row,
    jobs Demo.completed_world !! "j1" = Some row
    /\ Status_ID row = 3%Z /\ Progress row = 100%Z
    /\ Output_Path row ∈ files Demo.completed_world.
Proof.
  destruct (download_only_when_completed Sample.env_ok Demo.site "j1"
              Demo.completed_world Demo.completed_world
              {| file_path := Sample.output_path;
                 file_filename := "captioned_j1_input.mp4";
                 file_media_type := "video/mp4" |}
              ltac:(vm_compute; reflexivity))
    as (_ & _ & row & Hrow & Hstatus & Hprogress & Hout & _).
  exists row. repeat split; assumption.
Defined.

(** X19.  What the status route answers after a run, with the database up,
    the job's row present, dates that parse and names for statuses 3 and 4:
    Completed at 100 with the completion time and the download URL when the
    pipeline returned, and Failed at 0 with the old completion time and
    download URL when it raised.  The failure message is not part of the
    answer. *)
Theorem status_after_run (env : Env) (site : Site)
    (job_id input_path output_path : string) (opts : SubtitleOptions)
    (w : World) (row : JobRow) (completed failed : string)
    (created_at old_completed_at new_completed_at : datetime) :
  db_available env = true ->
  jobs w !! job_id = Some row ->
  Status_table (catalog site) !! 3%Z = Some completed ->
  Status_table (catalog site) !! 4%Z = Some failed ->
  strptime site (Created_At row) = Ok created_at ->
  strptime site (Completed_At row) = Ok old_completed_at ->
  strptime site (now env) = Ok new_completed_at ->
  let w0 := snd (update_job_status_db env job_id (Status_value NotStarted) 10 w) in
  let w' := snd (background_video_processing env job_id input_path
                   output_path opts w) in
  get_job_status env site job_id w'
  = (Ok (Respond
           (match fst (process_video_with_subtitles env job_id input_path
                         output_path opts w0) with
            | Ok _ =>
                {| status_job_id := job_id;
                   status_status_name := completed;
                   status_status_id := Status_value Completed;
                   status_progress := 100;
                   status_created_at := created_at;
                   status_completed_at := new_completed_at;
                   status_download_url := "/jobs/" +:+ job_id +:+ "/download" |}
            | Raise _ =>
                {| status_job_id := job_id;
                   status_status_name := failed;
                   status_status_id := Status_value Failed;
                   status_progress := 0;
                   status_created_at := created_at;
                   status_completed_at := old_completed_at;
                   status_download_url := Download_URL row |}
            end)), w').
Proof.
  intros Hdb Hrow Hn3 Hn4 Hcreated Hold Hnew. cbv zeta.
  destruct (background_video_processing_summary env job_id input_path
              output_path opts w)
    as (k & fs & Hk & _ & Hb & _ & Hjobs & _).
  cbv zeta in *. rewrite update_job_status_db_issue.
  unfold get_job_status, pull_job_status, get_job_status_db, bind, ret.
  rewrite Hdb, Hjobs.
  destruct (fst (process_video_with_subtitles env job_id input_path
                   output_path opts _)) as [b|e] eqn:Hp;
    cbn [terminal_call].
  - destruct (Hb b eq_refl) as [_ ->].
    rewrite (row_after_run env job_id 3
               (UpdateCompleted job_id (now env)
                  ("/jobs/" +:+ job_id +:+ "/download"))
               w row Hdb Hrow ltac:(lia) ltac:(left; eauto)).
    unfold joined_status.
    cbn [Created_At Completed_At Status_ID Progress Download_URL
         call_status call_progress].
    rewrite Hcreated, Hnew, Hn3. reflexivity.
  - rewrite (row_after_run env job_id k
               (UpdateFailed job_id ("Error: " +:+ exn_str e))
               w row Hdb Hrow Hk ltac:(right; eauto)).
    unfold joined_status.
    cbn [Created_At Completed_At Status_ID Progress Download_URL
         call_status call_progress].
    rewrite Hcreated, Hold, Hn4. reflexivity.
Qed.

Lemma status_after_run_witness :
  get_job_status Sample.env_whisper_fails Demo.site "j1" Demo.failed_world
  = (Ok (Respond {| status_job_id := "j1";
                    status_status_name := "Failed";
                    status_status_id := 4;
                    status_progress := 0;
                    status_created_at := "2025-06-01 12:00:00.000000";
                    status_completed_at := "0001-01-01 01:01:01.000001";
                    status_download_url := EmptyString |}),
     Demo.failed_world).
Proof.
  exact (status_after_run Sample.env_whisper_fails Demo.site "j1"
           Sample.input_path Sample.output_path Sample.default_options
           (Sample.created Sample.env_whisper_fails Sample.default_options)
           (new_job_row Sample.env_whisper_fails "talk.mp4")
           "Completed" "Failed" "2025-06-01 12:00:00.000000"
           "0001-01-01 01:01:01.000001" "2025-06-01 12:00:00.000000"
           eq_refl ltac:(vm_compute; reflexivity) eq_refl eq_refl
           eq_refl eq_refl eq_refl).
Defined.

Lemma create_job_issue (env : Env) (video_filename : string)
    (opts : SubtitleOptions) (w : World) :
  create_job env video_filename opts w
  = (Ok {| Job_Id := uuid4 env;
           Input_Path_ := Input_Path (new_job_row env video_filename);
           Output_Path_ := Output_Path (new_job_row env video_filename) |},
     issue env [InsertJob (uuid4 env) (new_job_row env video_filename) opts] w).
Proof.
  unfold create_job, create_job_db, bind, ret.
  rewrite db_execute_issue. reflexivity.
Qed.

(** The size test, in bytes: the division overflows from
    [2^1044 - 2^990] bytes on, and below that the upload is too large from
    [250 * 1024^2] bytes on. *)
Lemma too_large_bytes (size : Z) :
  too_large size
  = if (2 ^ 1044 - 2 ^ 990 <=? Z.abs size)%Z
    then Raise (mkExn OverflowError
                  "integer division result too large for a float")
    else Ok (250 * 1024 ^ 2 <=? size)%Z.
Proof.
  unfold too_large, true_divide. cbv zeta.
  unfold Qle_bool, Qabs, inject_Z. cbn [Qnum Qden].
  replace ((2 ^ 1024 - 2 ^ 970) * Z.pos (Z.to_pos (1024 ^ 2)))%Z
    with (2 ^ 1044 - 2 ^ 990)%Z by (vm_compute; reflexivity).
  rewrite !Z.mul_1_r.
  destruct (2 ^ 1044 - 2 ^ 990 <=? Z.abs size)%Z; [reflexivity|].
  cbn [rbind]. unfold Qle_bool. cbn [Qnum Qden].
  rewrite Z.mul_1_r. reflexivity.
Qed.

(** X20.  [upload_video] refuses a content type that does not start with
    [video/], and a size of 250 MiB ([250 * 1024^2] bytes) or more, with
    status 400, touching nothing; from [2^1044 - 2^990] bytes on the
    division of the size test overflows and the route raises
    [OverflowError] instead.  A smaller video is accepted: the route answers
    with the new job's id and status URL, saves the upload at the job's
    input path and schedules the task with the job's paths and the options
    of the form; it does so whether or not the store took the job. *)
Theorem upload_video_checks (env : Env) (video : UploadFile)
    (opts : SubtitleOptions) (w : World) :
  let reply :=
    upload_video env video (font opts) (font_size opts) (font_color opts)
      (stroke_color opts) (stroke_width opts) (position_id opts)
      (shadow opts) (max_chars opts) (max_duration opts) (max_gap opts) w in
  let id := uuid4 env in
  let row := new_job_row env (upload_filename video) in
  let size := upload_size video in
  (String.prefix "video/" (upload_content_type video) = false ->
   reply = (Ok (HTTPException 400 "File must be a video"), w))
  /\ (String.prefix "video/" (upload_content_type video) = true ->
      (250 * 1024 ^ 2 <= size < 2 ^ 1044 - 2 ^ 990)%Z ->
      reply = (Ok (HTTPException 400 "File must be 250 MB or less"), w))
  /\ (String.prefix "video/" (upload_content_type video) = true ->
      (2 ^ 1044 - 2 ^ 990 <= Z.abs size)%Z ->
      reply
      = (Raise (mkExn OverflowError
                  "integer division result too large for a float"), w))
  /\ (String.prefix "video/" (upload_content_type video) = true ->
      (- (2 ^ 1044 - 2 ^ 990) < size < 250 * 1024 ^ 2)%Z ->
      fst reply
      = Ok (Respond
              ({| response_job_id := id;
                  response_msg := "Video uploaded successfully";
                  response_status_url := "/jobs/" +:+ id +:+ "/status" |},
               {| task_job_id := id;
                  task_input_path := Input_Path row;
                  task_output_path := Output_Path row;
                  task_options := opts |}))
      /\ (forall path,
            path ∈ files (snd reply)
            <-> path = Input_Path row \/ path ∈ files w)
      /\ jobs (snd reply)
         = jobs (snd (create_job env (upload_filename video) opts w))
      /\ options (snd reply)
         = options (snd (create_job env (upload_filename video) opts w))).
Proof.
  cbv zeta. unfold upload_video.
  destruct opts as [f fs fc sc sw pid sh mc md mg].
  cbn [font font_size font_color stroke_color stroke_width position_id shadow
       max_chars max_duration max_gap].
  rewrite too_large_bytes.
  set (limit := (2 ^ 1044 - 2 ^ 990)%Z).
  destruct (String.prefix "video/" (upload_content_type video));
    cbn [negb]; (split; [|split; [|split]]); try discriminate;
    try reflexivity.
  - intros _ [Hlow Hhigh].
    rewrite (proj2 (Z.leb_gt limit _)) by lia.
    rewrite (proj2 (Z.leb_le _ _) Hlow). reflexivity.
  - intros _ Hover.
    rewrite (proj2 (Z.leb_le limit _) Hover). reflexivity.
  - intros _ [Hlow Hhigh].
    assert (Hlimit : (0 < limit)%Z) by (vm_compute; reflexivity).
    rewrite (proj2 (Z.leb_gt limit _)) by lia.
    rewrite (proj2 (Z.leb_gt _ _) Hhigh).
    unfold bind, lift, ret, create_file. rewrite create_job_issue.
    cbn [fst snd files jobs options Job_Id Input_Path_ Output_Path_].
    split; [reflexivity|]. split; [|split; reflexivity].
    intros path. rewrite elem_of_union, elem_of_singleton, files_issue.
    reflexivity.
Qed.

Lemma upload_video_checks_witness :
  upload_video Sample.env_ok (mkUpload "talk.mp4" "video/mp4" 262144000)
    "Arial" 24 "white" "black" 2 1 false 30 2.5 1.5 Sample.uploaded
  = (Ok (HTTPException 400 "File must be 250 MB or less"), Sample.uploaded)
  /\ fst (upload_video Sample.env_ok
            (mkUpload "talk.mp4" "video/mp4" 262143999)
            "Arial" 24 "white" "black" 2 1 false 30 2.5 1.5 Sample.uploaded)
     = Ok (Respond
             ({| response_job_id := "j1";
                 response_msg := "Video uploaded successfully";
                 response_status_url := "/jobs/j1/status" |},
              {| task_job_id := "j1";
                 task_input_path := "/temp/j1_input.mp4";
                 task_output_path := "/temp/j1_output.mp4";
                 task_options := Sample.default_options |})).
Proof.
  split.
  - exact (proj1 (proj2 (upload_video_checks Sample.env_ok
                           (mkUpload "talk.mp4" "video/mp4" 262144000)
                           Sample.default_options Sample.uploaded))
             eq_refl ltac:(cbn; lia)).
  - exact (proj1 (proj2 (proj2 (proj2
             (upload_video_checks Sample.env_ok
                (mkUpload "talk.mp4" "video/mp4" 262143999)
                Sample.default_options Sample.uploaded)))
             eq_refl ltac:(cbn; lia))).
Defined.






(** ** Start-up and the reference tables *)

(** X22.  A restart loses the finished videos.  Output files live in
    [TEMP_DIR], which the start-up empties without looking at the jobs: a job
    that was Completed keeps its row, and the download route answers 404
    "Processed video file not found" for it. *)
Theorem restart_deletes_finished_videos (env : Env) (site : Site)
    (c : Catalog) (job_id : string) (w : World) (row : JobRow)
    (name : string) (created_at completed_at : datetime) :
  db_available env = true ->
  jobs w !! job_id = Some row ->
  Status_ID row = Status_value Completed -> Progress row = 100%Z ->
  in_temp_dir env (Output_Path row) = true ->
  remove_error env (Output_Path row) = None ->
  Status_table (catalog site) !! 3%Z = Some name ->
  strptime site (Created_At row) = Ok created_at ->
  strptime site (Completed_At row) = Ok completed_at ->
  let start := lifespan_startup env c w in
  fst start = Ok (init_database c)
  /\ jobs (snd start) = jobs w
  /\ download_job env site job_id (snd start)
     = (Ok (HTTPException 404 "Processed video file not found"), snd start).
Proof.
  intros Hdb Hrow Hstatus Hprogress Htemp Hrm Hname Hcreated Hcompleted.
  cbv zeta. unfold lifespan_startup, bind, ret, cleanup_temp_files.
  pose proof (for_each_remove_quietly_files env
                (filter (fun p => in_temp_dir env p = true) (elements (files w)))
                w (Output_Path row)) as Hfiles.
  destruct (for_each_remove_quietly env
              (filter (fun p => in_temp_dir env p = true) (elements (files w))) w)
    as (w' & Hrun & Hjobs & _).
  rewrite Hrun in *. cbn [fst snd] in *.
  split; [reflexivity|]. split; [exact Hjobs|].
  unfold download_job, pull_job_download_url, get_job_download_URL_db, bind,
    ret, os_path_exists.
  rewrite Hdb, Hjobs, Hrow. unfold joined_status.
  rewrite Hcreated, Hcompleted, Hstatus. cbn [rbind Status_value].
  rewrite Hname.
  cbn [info_progress info_status_id info_output_path info_status_name].
  rewrite Hprogress. cbn [Z.eqb Pos.eqb negb orb].
  rewrite bool_decide_eq_false_2; [reflexivity|].
  intros Hout. apply Hfiles in Hout as [Hin Hkeep].
  apply Hkeep; [|exact Hrm].
  apply list_elem_of_In, list_elem_of_filter. split; [exact Htemp|].
  by apply elem_of_elements.
Qed.

Lemma restart_deletes_finished_videos_witness :
  fst (download_job Sample.env_ok Demo.site "j1"
         (snd (lifespan_startup Sample.env_ok (mkCatalog ∅ ∅)
                 Demo.completed_world)))
  = Ok (HTTPException 404 "Processed video file not found").
Proof.
  destruct (restart_deletes_finished_videos Sample.env_ok Demo.site
              (mkCatalog ∅ ∅) "j1" Demo.completed_world
              {| Progress := 100; Input_Path := Sample.input_path;
                 Output_Path := Sample.output_path;
                 Original_Filename := "talk.mp4";
                 Created_At := "2025-06-01 12:00:00.000000";
                 Completed_At := "2025-06-01 12:00:00.000000";
                 Status_ID := 3; Download_URL := "/jobs/j1/download";
                 Failed_Message := EmptyString |}
              "Completed" "2025-06-01 12:00:00.000000"
              "2025-06-01 12:00:00.000000"
              eq_refl ltac:(vm_compute; reflexivity) eq_refl eq_refl eq_refl
              eq_refl eq_refl eq_refl eq_refl)
    as (_ & _ & Hdownload).
  exact (f_equal fst Hdownload).
Defined.

Lemma lookup_insert_or_ignore (key : Z) (name : string)
    (table : gmap Z string) (k : Z) :
  insert_or_ignore key name table !! k
  = match table !! k with
    | Some x => Some x
    | None => if decide (k = key) then Some name else None
    end.
Proof.
  unfold insert_or_ignore.
  destruct (table !! key) eqn:Hkey.
  - destruct (table !! k) eqn:Hk; [reflexivity|].
    destruct (decide (k = key)) as [->|]; [congruence | reflexivity].
  - destruct (decide (k = key)) as [->|Hne].
    + rewrite lookup_insert_eq, Hkey. reflexivity.
    + rewrite lookup_insert_ne by congruence.
      destruct (table !! k); reflexivity.
Qed.

(** X23.  [init_database] can be run again and again: a second run changes
    nothing, a name already stored for an id is kept, and afterwards every
    value of [Status] and of [Position] has a name.  On a new database the
    ids of table [Positions] are exactly the values [Position] accepts. *)
Theorem init_database_tables (c : Catalog) :
  init_database (init_database c) = init_database c
  /\ (forall k v, Status_table c !! k = Some v ->
        Status_table (init_database c) !! k = Some v)
  /\ (forall k v, Positions c !! k = Some v ->
        Positions (init_database c) !! k = Some v)
  /\ (forall s, is_Some (Status_table (init_database c) !! Status_value s))
  /\ (forall p, is_Some (Positions (init_database c) !! Position_value p))
  /\ (forall v,
        is_Some (Positions (init_database (mkCatalog ∅ ∅)) !! v)
        <-> exists p, Position_of_value v = Ok p).
Proof.
  repeat apply conj.
  - unfold init_database. cbn [Positions Status_table]. f_equal.
    + apply map_eq. intros k. rewrite !lookup_insert_or_ignore.
      destruct (Positions c !! k); [reflexivity|].
      repeat (destruct (decide _); try reflexivity).
    + apply map_eq. intros k. rewrite !lookup_insert_or_ignore.
      destruct (Status_table c !! k); [reflexivity|].
      repeat (destruct (decide _); try reflexivity).
  - intros k v Hk. cbn [init_database Status_table].
    rewrite !lookup_insert_or_ignore, Hk. reflexivity.
  - intros k v Hk. cbn [init_database Positions].
    rewrite !lookup_insert_or_ignore, Hk. reflexivity.
  - intros s. cbn [init_database Status_table].
    rewrite !lookup_insert_or_ignore.
    destruct (Status_table c !! Status_value s); [eauto|].
    destruct s; cbn; eauto.
  - intros p. cbn [init_database Positions].
    rewrite !lookup_insert_or_ignore.
    destruct (Positions c !! Position_value p); [eauto|].
    destruct p; cbn; eauto.
  - intros v. cbn [init_database Positions].
    rewrite !lookup_insert_or_ignore, lookup_empty.
    unfold Position_of_value.
    destruct (Z.eqb_spec v 1) as [->|H1]; [split; eauto|].
    destruct (Z.eqb_spec v 2) as [->|H2]; [split; eauto|].
    destruct (Z.eqb_spec v 3) as [->|H3]; [split; eauto|].
    rewrite !decide_False by assumption.
    split; [intros [x Hx]; discriminate | intros [p Hp]; discriminate].
Qed.
